(** * fctl: report state based on FAUCET/Gauge/Prometheus variables

    A shallow embedding of [src/faucet/fctl.py] and the properties of its
    fetch -> parse -> filter -> decode -> format pipeline.

    Conventions of the embedding:
    - a Python call that may raise returns a [py_result];
    - network I/O, sleeping and stream writes are recorded, in order, in the
      [trace] of an explicitly passed [state];
    - the libraries the program only consumes (the exposition parser, the
      HTTP client, strict UTF-8 decoding, argparse, [str] of a float and
      [repr] of a string) are the fields of the class [External]. *)

From Stdlib Require Import ZArith List String Ascii Lia SpecFloat Sorted.
From stdpp Require Import base gmap strings list fin_maps.
Import ListNotations.

Local Open Scope string_scope.
Local Open Scope list_scope.
Local Open Scope Z_scope.

(** ** Python values, exceptions and results *)

(** The exception classes the program raises, catches or lets through.
    [ConnectionError] is [requests.exceptions.ConnectionError];
    [OtherError] stands for every class unrelated to the ones named in an
    [except] clause of the program (URLError, Timeout, ...). *)
Inductive exc_class :=
| ConnectionError
| ValueError
| UnicodeDecodeError
| KeyError
| IndexError
| TypeError
| AttributeError
| OverflowError
| SystemExit (code : Z)
| OtherError.

Record py_exc := PyExc { exc_cls : exc_class; exc_str : string }.

(** [issubclass c base]: [UnicodeDecodeError] derives from [ValueError];
    the other classes are only subclasses of themselves. *)
Definition issubclass (c base : exc_class) : bool :=
  match c, base with
  | ConnectionError, ConnectionError => true
  | ValueError, ValueError => true
  | UnicodeDecodeError, ValueError => true
  | UnicodeDecodeError, UnicodeDecodeError => true
  | KeyError, KeyError => true
  | IndexError, IndexError => true
  | TypeError, TypeError => true
  | AttributeError, AttributeError => true
  | OverflowError, OverflowError => true
  | _, _ => false
  end.

(** [except (C1, ..., Cn)] catches [e] when it is an instance of one [Ci]. *)
Definition caught_by (classes : list exc_class) (e : py_exc) : bool :=
  existsb (issubclass (exc_cls e)) classes.

Inductive py_result (A : Type) :=
| Ok (a : A)
| Raise (e : py_exc).
Arguments Ok {A} a.
Arguments Raise {A} e.

Definition bind {A B} (r : py_result A) (k : A -> py_result B) : py_result B :=
  match r with
  | Ok a => k a
  | Raise e => Raise e
  end.

Notation "x <- r ;; k" := (bind r (fun x => k))
  (at level 100, r at next level, right associativity).

(** A Python [float] is an IEEE 754 binary64 number: the Standard Library's
    [spec_float]. [int(value)] truncates towards zero, and raises on NaN
    and on the infinities. *)
Definition py_int (value : spec_float) : py_result Z :=
  match value with
  | S754_zero _ => Ok 0
  | S754_infinity _ =>
      Raise (PyExc OverflowError "cannot convert float infinity to integer")
  | S754_nan => Raise (PyExc ValueError "cannot convert float NaN to integer")
  | S754_finite s m e =>
      let magnitude := Z.shiftl (Z.pos m) e in
      Ok (if s then - magnitude else magnitude)
  end.

(** [n.to_bytes(length, byteorder='big')] on an [int]; a byte is a [Z] in
    [0, 256), as iterating over a Python [bytes] yields. *)
Fixpoint to_bytes_little (length : nat) (n : Z) : list Z :=
  match length with
  | O => []
  | S k => n mod 256 :: to_bytes_little k (n / 256)
  end.

Definition to_bytes_big (n : Z) (length : nat) : py_result (list Z) :=
  if n <? 0 then
    Raise (PyExc OverflowError "can't convert negative int to unsigned")
  else if 256 ^ Z.of_nat length <=? n then
    Raise (PyExc OverflowError "int too big to convert")
  else Ok (rev (to_bytes_little length n)).

Definition hex_digit (d : Z) : ascii :=
  match d with
  | 0 => "0" | 1 => "1" | 2 => "2" | 3 => "3" | 4 => "4"
  | 5 => "5" | 6 => "6" | 7 => "7" | 8 => "8" | 9 => "9"
  | 10 => "a" | 11 => "b" | 12 => "c" | 13 => "d" | 14 => "e"
  | _ => "f"
  end%char.

(** [format(octet, '02x')] for an octet in [0, 256). *)
Definition format_02x (octet : Z) : string :=
  String (hex_digit (octet / 16)) (String (hex_digit (octet mod 16)) EmptyString).

(** [sep.join(items)]. *)
Definition join (sep : string) (items : list string) : string :=
  String.concat sep items.

(** What [decode_value] returns: the float it was given, or a string. *)
Inductive display_value :=
| VFloat (f : spec_float)
| VStr (s : string).

(** ** decode_value *)

Definition decode_value (metric_name : option string) (value : spec_float)
  : py_result display_value :=
  if bool_decide (metric_name = Some "learned_macs") then
    n <- py_int value ;;
    octets <- to_bytes_big n 6 ;;
    Ok (VStr (join ":" (map format_02x octets)))
  else Ok (VFloat value).

(** ** Data model: samples and metric families *)

(** A [prometheus_client] [Sample]: metric name, label mapping (keys
    unique), float value and optional timestamp. *)
Record Sample := mkSample {
  sample_name : string;
  labels : gmap string string;
  value : spec_float;
  timestamp : option spec_float
}.

(** A metric family: a name and its samples in parse order. *)
Record Metric := mkMetric {
  name : string;
  samples : list Sample
}.

(** ** _get_samples_from_metrics *)

(** [set(d.items())] *)
Definition items_set (d : gmap string string) : gset (string * string) :=
  list_to_set (map_to_list d).

(** [label_matches is None or
     set(label_matches.items()).issubset(set(labels.items()))] *)
Definition labels_match (label_matches : option (gmap string string))
    (sample_labels : gmap string string) : bool :=
  match label_matches with
  | None => true
  | Some required => bool_decide (items_set required ⊆ items_set sample_labels)
  end.

(** The body of the inner loop: [Ok true] when the sample is appended to
    the result, [Ok false] when it is skipped. [int(value)] is evaluated
    only when the labels match and [nonzero_only] is set. *)
Definition keep_sample (label_matches : option (gmap string string))
    (nonzero_only : bool) (sample : Sample) : py_result bool :=
  if labels_match label_matches (labels sample) then
    if nonzero_only then
      n <- py_int (value sample) ;;
      Ok (negb (n =? 0))
    else Ok true
  else Ok false.

Fixpoint samples_loop (label_matches : option (gmap string string))
    (nonzero_only : bool) (todo : list Sample) (result : list Sample)
  : py_result (list Sample) :=
  match todo with
  | [] => Ok result
  | sample :: rest =>
      keep <- keep_sample label_matches nonzero_only sample ;;
      samples_loop label_matches nonzero_only rest
        (if keep then result ++ [sample] else result)
  end.

(** [metric_name is None or metric.name == metric_name] *)
Definition name_selected (metric_name : option string) (metric : Metric) : bool :=
  match metric_name with
  | None => true
  | Some wanted => bool_decide (name metric = wanted)
  end.

Fixpoint metrics_loop (metric_name : option string)
    (label_matches : option (gmap string string)) (nonzero_only : bool)
    (todo : list Metric) (result : list Sample) : py_result (list Sample) :=
  match todo with
  | [] => Ok result
  | metric :: rest =>
      if name_selected metric_name metric then
        result' <- samples_loop label_matches nonzero_only (samples metric) result ;;
        metrics_loop metric_name label_matches nonzero_only rest result'
      else metrics_loop metric_name label_matches nonzero_only rest result
  end.

Definition _get_samples_from_metrics (metrics : list Metric)
    (metric_name : option string)
    (label_matches : option (gmap string string)) (nonzero_only : bool)
  : py_result (list Sample) :=
  metrics_loop metric_name label_matches nonzero_only metrics [].

(** ** Strings: newline, tab, [split], [sorted] on label pairs *)

Definition newline : string := String (ascii_of_nat 10) EmptyString.
Definition tab : string := String (ascii_of_nat 9) EmptyString.

(** [s.split(sep)] for a one-character separator. *)
Fixpoint split (sep : ascii) (s : string) : list string :=
  match s with
  | EmptyString => [EmptyString]
  | String c rest =>
      if Ascii.eqb c sep then EmptyString :: split sep rest
      else match split sep rest with
           | token :: tokens => String c token :: tokens
           | [] => [String c EmptyString]
           end
  end.

(** Order of Python tuples of two strings: by first component, then by
    second. *)
Definition pair_leb (p q : string * string) : bool :=
  match String.compare (fst p) (fst q) with
  | Lt => true
  | Eq => String.leb (snd p) (snd q)
  | Gt => false
  end.

Fixpoint insert_sorted (p : string * string) (l : list (string * string))
  : list (string * string) :=
  match l with
  | [] => [p]
  | q :: rest => if pair_leb p q then p :: l else q :: insert_sorted p rest
  end.

(** [sorted(pairs)] *)
Definition sorted (pairs : list (string * string)) : list (string * string) :=
  fold_right insert_sorted [] pairs.

(** [not display_labels or key in display_labels] *)
Definition label_displayed (display_labels : option (list string))
    (key : string) : bool :=
  match display_labels with
  | None | Some [] => true
  | Some keys => bool_decide (key ∈ keys)
  end.

(** The value of [report_output]: it starts as a list of lines and is
    rebound to a [str] by the newline join. *)
Inductive report_value :=
| RList (lines : list string)
| RStr (text : string).

(** A [str] is held as its UTF-8 encoding. A continuation byte is one
    of [0x80 .. 0xBF]. *)
Definition is_continuation (byte : ascii) : bool :=
  let n := N_of_ascii byte in ((128 <=? n) && (n <? 192))%N.

(** The characters of a [str], as iterating over it yields them: each
    leading byte with the continuation bytes that follow it. *)
Fixpoint characters (s : string) : list string :=
  match s with
  | EmptyString => []
  | String c rest =>
      let later := characters rest in
      let continued :=
        match rest with
        | String next _ => is_continuation next
        | EmptyString => false
        end in
      match later with
      | char :: chars =>
          if continued then String c char :: chars
          else String c EmptyString :: later
      | [] => [String c EmptyString]
      end
  end.

(** ['\n'.join(report_output)]: joins the lines of a list, and the
    characters of a [str]. *)
Definition newline_join (report_output : report_value) : report_value :=
  match report_output with
  | RList lines => RStr (join newline lines)
  | RStr text => RStr (join newline (characters text))
  end.

(** ** The outside world *)

(** What one network call (the [requests.get] or the [urlopen] plus
    [read] of one attempt) does: it raises, or hands back a response with
    a status code and a body. *)
Inductive net_reply :=
| NetRaise (e : py_exc)
| NetResponse (status_code : Z) (content : list Byte.byte).

(** The values argparse leaves in the namespace: [store_true] for
    [--nonzero], and [None] or the given string for the other options. *)
Record Namespace := mkNamespace {
  ns_nonzero : bool;
  ns_endpoints : option string;
  ns_metrics : option string;
  ns_labels : option string;
  ns_display_labels : option string
}.

(** How argparse itself ends the process: for [-h] or [--help] it prints
    the help text to standard output and exits with status 0; a command
    line it rejects makes it print the usage and a message to standard
    error and exit with status 2. *)
Inductive argparse_exit :=
| ArgparseHelp (text : string)
| ArgparseError (message : string).

(** The libraries and the environment the program consumes.
    [net_reply_of endpoint i] is the reply to the [i]-th network call of
    the run when it is made to [endpoint];
    [arg_parser_parse_args] gives the namespace, or the way argparse ends
    the process. *)
Class External := {
  net_reply_of : string -> nat -> net_reply;
  utf8_decode_strict : list Byte.byte -> py_result string;
  text_string_to_metric_families : option string -> py_result (list Metric);
  str_float : spec_float -> string;
  repr_str : string -> string;
  arg_parser_parse_args : list string -> argparse_exit + Namespace;
  usage_text : string;
  format_traceback : py_exc -> string
}.

Inductive stream :=
| Stdout
| Stderr
| File (path : string).

Inductive event :=
| EvGet (endpoint : string)
| EvUrlopen (endpoint : string)
| EvSleep (seconds : Z)
| EvParse (content : option string)
| EvWrite (file : stream) (text : string).

(** Number of network calls made so far, and everything observable the
    run has done, oldest first. *)
Record state := mkState {
  calls : nat;
  trace : list event
}.

Definition initial_state : state := mkState 0 [].

Definition emit (ev : event) (st : state) : state :=
  mkState (calls st) (trace st ++ [ev]).

Definition network_call (ev : event) (st : state) : state :=
  mkState (S (calls st)) (trace st ++ [ev]).

(** [requests.status_codes.codes.ok] *)
Definition codes_ok : Z := 200.

(** ** scrape_prometheus *)

(** [requests.get] for an endpoint that starts with [http], [urlopen]
    otherwise. *)
Definition request_event (endpoint : string) : event :=
  if String.prefix "http" endpoint then EvGet endpoint else EvUrlopen endpoint.

(** How the [try] body of one attempt ends. *)
Inductive attempt_end :=
| Break (content : string)
| FallThrough
| Raised (e : py_exc).

Section Scrape.
Context `{External}.

(** The [try] body of one attempt, given the reply of its network call. *)
Definition try_body (endpoint : string) (reply : net_reply) : attempt_end :=
  if String.prefix "http" endpoint then
    match reply with
    | NetRaise e => Raised e
    | NetResponse status_code content =>
        if status_code =? codes_ok then
          match utf8_decode_strict content with
          | Ok text => Break text
          | Raise e => Raised e
          end
        else FallThrough
    end
  else
    match reply with
    | NetRaise e => Raised e
    | NetResponse _ content =>
        match utf8_decode_strict content with
        | Ok text => Break text
        | Raise e => Raised e
        end
    end.

Definition attempt (endpoint : string) (st : state) : attempt_end * state :=
  (try_body endpoint (net_reply_of endpoint (calls st)),
   network_call (request_event endpoint) st).

(** [for _ in range(retries)]: [n] iterations are left; [content] and
    [err] are the loop's variables. An exception the [except] clause does
    not name leaves the function. *)
Fixpoint retry_loop (n : nat) (endpoint : string)
    (content : option string) (err : option py_exc) (st : state)
  : py_result (option string * option py_exc) * state :=
  match n with
  | O => (Ok (content, err), st)
  | S n' =>
      match attempt endpoint st with
      | (Break text, st1) => (Ok (Some text, err), st1)
      | (FallThrough, st1) => retry_loop n' endpoint content err st1
      | (Raised e, st1) =>
          if caught_by [ConnectionError; ValueError] e then
            retry_loop n' endpoint content (Some e) (emit (EvSleep 1) st1)
          else (Raise e, st1)
      end
  end.

(** The loop over the endpoints; [None] is the "no data" result. *)
Fixpoint endpoints_loop (retries : Z) (err_output_file : stream)
    (endpoints : list string) (metrics : list Metric) (st : state)
  : py_result (option (list Metric)) * state :=
  match endpoints with
  | [] => (Ok (Some metrics), st)
  | endpoint :: rest =>
      match retry_loop (Z.to_nat retries) endpoint None None st with
      | (Raise e, st1) => (Raise e, st1)
      | (Ok (_, Some err), st1) =>
          (Ok None, emit (EvWrite err_output_file (exc_str err)) st1)
      | (Ok (content, None), st1) =>
          let st2 := emit (EvParse content) st1 in
          match text_string_to_metric_families content with
          | Ok endpoint_metrics =>
              endpoints_loop retries err_output_file rest
                (metrics ++ endpoint_metrics) st2
          | Raise err =>
              if caught_by [ValueError] err then
                (Ok None, emit (EvWrite err_output_file (exc_str err)) st2)
              else (Raise err, st2)
          end
      end
  end.

Definition scrape_prometheus (endpoints : list string) (retries : Z)
    (err_output_file : stream) (st : state)
  : py_result (option (list Metric)) * state :=
  endpoints_loop retries err_output_file endpoints [] st.

End Scrape.

(** ** get_samples and report_label_match_metrics *)

Section Report.
Context `{External}.

(** [get_samples]: scrape with the default error stream, then filter. *)
Definition get_samples (endpoints : list string) (metric_name : option string)
    (label_matches : option (gmap string string)) (nonzero_only : bool)
    (retries : Z) (st : state) : py_result (option (list Sample)) * state :=
  match scrape_prometheus endpoints retries Stdout st with
  | (Raise e, st1) => (Raise e, st1)
  | (Ok None, st1) => (Ok None, st1)
  | (Ok (Some metrics), st1) =>
      (found <- _get_samples_from_metrics metrics metric_name
                  label_matches nonzero_only ;;
       Ok (Some found), st1)
  end.

(** [str] of a list of pairs of strings. *)
Definition str_pairs (pairs : list (string * string)) : string :=
  "[" +:+ join ", "
            (map (fun p => "(" +:+ repr_str (fst p) +:+ ", "
                               +:+ repr_str (snd p) +:+ ")") pairs)
      +:+ "]".

(** [str] of what [decode_value] returned. *)
Definition str_value (v : display_value) : string :=
  match v with
  | VFloat f => str_float f
  | VStr s => s
  end.

(** [[(key, val) for key, val in sorted(labels.items())
      if not display_labels or key in display_labels]] *)
Definition sorted_labels_of (display_labels : option (list string))
    (sample_labels : gmap string string) : list (string * string) :=
  filter (fun p => label_displayed display_labels (fst p) = true)
    (sorted (map_to_list sample_labels)).

(** The text of one line, when [metric_name] is a string. *)
Definition report_line (delim metric_name : string)
    (sorted_labels : list (string * string)) (v : display_value) : string :=
  join delim [metric_name; str_pairs sorted_labels; str_value v].

(** The body of the loop over the retained samples. [decode_value] runs
    first; [report_output.append] is looked up before [delim.join] is
    called, and [delim.join] rejects a [None] item. *)
Definition report_sample (metric_name : option string)
    (display_labels : option (list string)) (delim : string)
    (report_output : report_value) (sample : Sample)
  : py_result report_value :=
  let sorted_labels := sorted_labels_of display_labels (labels sample) in
  v <- decode_value metric_name (value sample) ;;
  match report_output with
  | RStr _ =>
      Raise (PyExc AttributeError "'str' object has no attribute 'append'")
  | RList lines =>
      match metric_name with
      | None =>
          Raise (PyExc TypeError
                   "sequence item 0: expected str instance, NoneType found")
      | Some metric =>
          Ok (RList (lines ++ [report_line delim metric sorted_labels v]))
      end
  end.

Fixpoint report_samples_loop (metric_name : option string)
    (display_labels : option (list string)) (delim : string)
    (todo : list Sample) (report_output : report_value)
  : py_result report_value :=
  match todo with
  | [] => Ok report_output
  | sample :: rest =>
      out <- report_sample metric_name display_labels delim
               report_output sample ;;
      report_samples_loop metric_name display_labels delim rest out
  end.

(** The loop over [report_metrics]; the newline join is its last
    statement. *)
Fixpoint report_metrics_loop (todo : list (option string))
    (metrics : list Metric) (display_labels : option (list string))
    (nonzero_only : bool) (delim : string)
    (label_matches : option (gmap string string))
    (report_output : report_value) : py_result report_value :=
  match todo with
  | [] => Ok report_output
  | metric_name :: rest =>
      retained <- _get_samples_from_metrics metrics metric_name
                    label_matches nonzero_only ;;
      out <- report_samples_loop metric_name display_labels delim
               retained report_output ;;
      report_metrics_loop rest metrics display_labels nonzero_only delim
        label_matches (newline_join out)
  end.

Definition report_label_match_metrics (report_metrics : option (list string))
    (metrics : list Metric) (display_labels : option (list string))
    (nonzero_only : bool) (delim : string)
    (label_matches : option (gmap string string)) : py_result report_value :=
  let report_metrics' :=
    match report_metrics with
    | None => [None]
    | Some names => map Some names
    end in
  report_metrics_loop report_metrics' metrics display_labels nonzero_only
    delim label_matches (RList []).

(** The lines of a report on one metric name that is not the learned-MAC
    metric. *)
Definition plain_lines (delim metric : string)
    (display_labels : option (list string)) (found : list Sample)
  : list string :=
  map (fun sample =>
         report_line delim metric
           (sorted_labels_of display_labels (labels sample))
           (VFloat (value sample)))
      found.

End Report.

(** ** parse_args and main *)

(** The tuple [parse_args] returns:
    [(endpoints, report_metrics, label_matches, nonzero_only, display_labels)]. *)
Definition query : Type :=
  list string * list string * option (gmap string string) * bool
  * option (list string).

(** [if option_value:] holds for a non-empty string. *)
Definition given (option_value : option string) : option string :=
  match option_value with
  | Some EmptyString | None => None
  | Some s => Some s
  end.

(** [for label_value in args.labels.split(','):
       label, value = label_value.split(':')
       label_matches[label] = value] *)
Fixpoint labels_loop (todo : list string) (label_matches : gmap string string)
  : py_result (gmap string string) :=
  match todo with
  | [] => Ok label_matches
  | label_value :: rest =>
      match split ":" label_value with
      | [label; val] => labels_loop rest (<[label := val]> label_matches)
      | [] | [_] =>
          Raise (PyExc ValueError
                   "not enough values to unpack (expected 2, got 1)")
      | _ => Raise (PyExc ValueError "too many values to unpack (expected 2)")
      end
  end.

Section Cli.
Context `{External}.

(** The [try] block of [parse_args]. For [-h] argparse writes the help to
    standard output and raises [SystemExit(0)]; it rejects a command line
    by writing the usage and its message to standard error and raising
    [SystemExit(2)]. *)
Definition parse_args_try (sys_args : list string) (st : state)
  : py_result query * state :=
  match arg_parser_parse_args sys_args with
  | inl (ArgparseHelp text) =>
      (Raise (PyExc (SystemExit 0) EmptyString), emit (EvWrite Stdout text) st)
  | inl (ArgparseError message) =>
      (Raise (PyExc (SystemExit 2) message),
       emit (EvWrite Stderr (usage_text +:+ message)) st)
  | inr args =>
      let nonzero_only := ns_nonzero args in
      let endpoints :=
        match given (ns_endpoints args) with
        | Some s => split "," s
        | None => []
        end in
      let report_metrics :=
        match given (ns_metrics args) with
        | Some s => split "," s
        | None => []
        end in
      let display_labels :=
        match given (ns_display_labels args) with
        | Some s => Some (split "," s)
        | None => None
        end in
      match given (ns_labels args) with
      | None =>
          (Ok (endpoints, report_metrics, None, nonzero_only, display_labels), st)
      | Some s =>
          (label_matches <- labels_loop (split "," s) ∅ ;;
           Ok (endpoints, report_metrics, Some label_matches, nonzero_only,
               display_labels), st)
      end
  end.

(** [except (KeyError, IndexError)]: [print_usage()] writes to standard
    output, then [sys.exit(-1)]. *)
Definition parse_args (sys_args : list string) (st : state)
  : py_result query * state :=
  match parse_args_try sys_args st with
  | (Raise e, st1) =>
      if caught_by [KeyError; IndexError] e then
        (Raise (PyExc (SystemExit (-1)) EmptyString),
         emit (EvWrite Stdout usage_text) st1)
      else (Raise e, st1)
  | ok => ok
  end.

(** [str(report)], as [print] takes it. *)
Definition str_report (report : report_value) : string :=
  match report with
  | RStr text => text
  | RList lines => "[" +:+ join ", " (map repr_str lines) +:+ "]"
  end.

(** [print(report)] *)
Definition print (report : report_value) (st : state) : state :=
  emit (EvWrite Stdout (str_report report +:+ newline)) st.

Definition main (sys_args : list string) (st : state) : py_result unit * state :=
  match parse_args sys_args st with
  | (Raise e, st1) => (Raise e, st1)
  | (Ok (endpoints, report_metrics, label_matches, nonzero_only,
         display_labels), st1) =>
      match scrape_prometheus endpoints 3 Stdout st1 with
      | (Raise e, st2) => (Raise e, st2)
      | (Ok None, st2) => (Raise (PyExc (SystemExit 1) EmptyString), st2)
      | (Ok (Some metrics), st2) =>
          match report_label_match_metrics (Some report_metrics) metrics
                  display_labels nonzero_only tab label_matches with
          | Raise e => (Raise e, st2)
          | Ok report => (Ok (), print report st2)
          end
      end
  end.

(** The process: exit status (the argument of [sys.exit], [1] after an
    uncaught exception, whose traceback goes to standard error) and the
    final state. *)
Definition run (sys_args : list string) : Z * state :=
  match main sys_args initial_state with
  | (Ok _, st) => (0, st)
  | (Raise e, st) =>
      match exc_cls e with
      | SystemExit code => (code, st)
      | _ => (1, emit (EvWrite Stderr (format_traceback e)) st)
      end
  end.

End Cli.

(** ** Notions used to state the properties *)

(** [int.from_bytes(octets, 'big')] *)
Definition from_bytes_big (octets : list Z) : Z :=
  fold_left (fun acc octet => acc * 256 + octet) octets 0.

(** The position of a character in a list of characters, counted from
    [i]. *)
Fixpoint index_from (i : Z) (c : ascii) (chars : list ascii) : option Z :=
  match chars with
  | [] => None
  | c' :: rest => if Ascii.eqb c c' then Some i else index_from (i + 1) c rest
  end.

(** The value of a lowercase hexadecimal digit; [None] for any other
    character. *)
Definition hex_value (c : ascii) : option Z :=
  index_from 0 c (list_ascii_of_string "0123456789abcdef").

(** The stream writes of a trace, in order. *)
Fixpoint writes (events : list event) : list (stream * string) :=
  match events with
  | [] => []
  | EvWrite file text :: rest => (file, text) :: writes rest
  | _ :: rest => writes rest
  end.

(** The samples of the families [metric_name] selects, in family order and,
    within a family, in parse order. *)
Definition selected_samples (metric_name : option string)
    (metrics : list Metric) : list Sample :=
  flat_map samples (List.filter (name_selected metric_name) metrics).

(** The attempt whose network call is call number [k] of the run fails
    with [e], an error the retry loop catches. *)
Definition fails_with `{External} (endpoint : string) (k : nat) (e : py_exc)
  : Prop :=
  try_body endpoint (net_reply_of endpoint k) = Raised e
  /\ caught_by [ConnectionError; ValueError] e = true.

(** Whether the filter retains a sample, as a boolean: the labels match
    and, under [nonzero_only], the value truncates to a non-zero integer. *)
Definition retained (label_matches : option (gmap string string))
    (nonzero_only : bool) (sample : Sample) : bool :=
  labels_match label_matches (labels sample)
  && (negb nonzero_only
      || match py_int (value sample) with
         | Ok n => negb (n =? 0)
         | Raise _ => false
         end).

(** The events of [n] failed attempts: a request and a one-second sleep
    each. *)
Definition failed_attempts (endpoint : string) (n : nat) : list event :=
  concat (repeat [request_event endpoint; EvSleep 1] n).

(** ** A concrete environment for running the program *)

#[global] Instance spec_float_eq_dec : EqDecision spec_float.
Proof. solve_decision. Defined.

(** 1.0, 0.5, 0.0 and 0xB827EB608918 as binary64 numbers. *)
Definition float_one : spec_float := S754_finite false 4503599627370496 (-52).
Definition float_half : spec_float := S754_finite false 4503599627370496 (-53).
Definition float_zero : spec_float := S754_zero false.
Definition float_mac : spec_float := S754_finite false 6479410950644480 (-5).

Definition demo_str_float (f : spec_float) : string :=
  if decide (f = float_one) then "1.0"
  else if decide (f = float_half) then "0.5"
  else if decide (f = float_zero) then "0.0"
  else "float".

(** An environment whose network, exposition parser and argparse are
    given, with ASCII decoding and the [repr] of a plain string. *)
Definition demo_external (net : string -> nat -> net_reply)
    (parse : option string -> py_result (list Metric))
    (argparse : list string -> argparse_exit + Namespace) : External := {|
  net_reply_of := net;
  utf8_decode_strict := fun content => Ok (string_of_list_byte content);
  text_string_to_metric_families := parse;
  str_float := demo_str_float;
  repr_str := fun s => "'" +:+ s +:+ "'";
  arg_parser_parse_args := argparse;
  usage_text := "usage: fctl";
  format_traceback := fun e => "Traceback (most recent call last): " +:+ exc_str e
|}.

Definition faucet_endpoint : string := "http://172.17.0.1:9302".
Definition gauge_endpoint : string := "http://172.17.0.1:9303".

(** Exposition text with the one sample [dp_status 1], and its parse. *)
Definition dp_status_text : string := "dp_status 1".

Definition dp_status_sample : Sample :=
  mkSample "dp_status" ∅ float_one None.

Definition dp_status_family : Metric := mkMetric "dp_status" [dp_status_sample].

Definition demo_parse (content : option string) : py_result (list Metric) :=
  match content with
  | None => Ok []
  | Some text =>
      if decide (text = dp_status_text) then Ok [dp_status_family]
      else if decide (text = EmptyString) then Ok []
      else Raise (PyExc ValueError ("Invalid line: " +:+ text))
  end.

Definition ok_reply : net_reply :=
  NetResponse 200 (list_byte_of_string dp_status_text).

Definition connection_refused : py_exc :=
  PyExc ConnectionError "Connection refused".

(** The first network call of the run is refused, the later ones answer. *)
Definition net_refused_once (endpoint : string) (k : nat) : net_reply :=
  match k with
  | O => NetRaise connection_refused
  | S _ => ok_reply
  end.

Definition net_refused_always (endpoint : string) (k : nat) : net_reply :=
  NetRaise connection_refused.

Definition net_unavailable (endpoint : string) (k : nat) : net_reply :=
  NetResponse 503 [].

Definition net_ok (endpoint : string) (k : nat) : net_reply := ok_reply.

(** argparse on [-e http://172.17.0.1:9302] and on
    [-e http://172.17.0.1:9302 -l dp_id]. *)
Definition args_endpoint_only : list string := ["-e"; faucet_endpoint].
Definition args_bad_label : list string := ["-e"; faucet_endpoint; "-l"; "dp_id"].

Definition demo_argparse (sys_args : list string)
  : argparse_exit + Namespace :=
  if decide (sys_args = args_endpoint_only) then
    inr (mkNamespace false (Some faucet_endpoint) None None None)
  else if decide (sys_args = args_bad_label) then
    inr (mkNamespace false (Some faucet_endpoint) None (Some "dp_id") None)
  else inl (ArgparseError "fctl: error: unrecognized arguments").

(** The environments of the runs below. *)
Definition env_ok : External := demo_external net_ok demo_parse demo_argparse.
Definition env_refused_once : External :=
  demo_external net_refused_once demo_parse demo_argparse.
Definition env_refused_always : External :=
  demo_external net_refused_always demo_parse demo_argparse.
Definition env_unavailable : External :=
  demo_external net_unavailable demo_parse demo_argparse.

(** Two families with one labelled sample each. *)
Definition dp1_sample : Sample :=
  mkSample "dp_status" {[ "dp_id" := "1" ]} float_one None.
Definition port3_sample : Sample :=
  mkSample "port_status" {[ "dp_id" := "1"; "port" := "3" ]} float_one None.
Definition two_families : list Metric :=
  [mkMetric "dp_status" [dp1_sample]; mkMetric "port_status" [port3_sample]].

(** The report line of [dp1_sample] with the default delimiter. *)
Definition dp1_line : string :=
  "dp_status" +:+ tab +:+ "[('dp_id', '1')]" +:+ tab +:+ "1.0".

(** One family with samples of value 0, 0.5 and 1. *)
Definition zero_sample : Sample := mkSample "dp_status" ∅ float_zero None.
Definition half_sample : Sample := mkSample "dp_status" ∅ float_half None.
Definition mixed_family : list Metric :=
  [mkMetric "dp_status" [zero_sample; half_sample; dp_status_sample]].

(** ** Further notions and environments *)

(** Whether the character [c] occurs in [s]. *)
Fixpoint has_char (c : ascii) (s : string) : bool :=
  match s with
  | EmptyString => false
  | String c' rest => Ascii.eqb c' c || has_char c rest
  end.

(** The command-line form [key:value] of a required label. *)
Definition label_item (p : string * string) : string :=
  fst p +:+ ":" +:+ snd p.

(** A text that can stand in a comma-separated list of [key:value]
    items: it holds neither a comma nor a colon. *)
Definition plain_word (s : string) : Prop :=
  has_char "," s = false /\ has_char ":" s = false.

(** How a comma-separated option and the list parsed from it relate: an
    absent or empty option gives the empty list; otherwise the list is not
    empty, none of its items holds a comma, and joining it with commas
    gives the option back. *)
Definition comma_list (option_value : option string) (parsed : list string)
  : Prop :=
  match given option_value with
  | None => parsed = []
  | Some s =>
      join "," parsed = s /\ parsed <> []
      /\ Forall (fun item => has_char "," item = false) parsed
  end.

(** The dictionary built by assigning the pairs in order. *)
Definition dict_of (pairs : list (string * string)) : gmap string string :=
  fold_left (fun acc p => <[fst p := snd p]> acc) pairs ∅.

(** The families a requested metric name stands for: all of them when the
    name is absent, those of that name otherwise. *)
Definition families_named (metric_name : option string)
    (metrics : list Metric) : list Metric :=
  match metric_name with
  | None => metrics
  | Some wanted =>
      List.filter (fun metric => String.eqb (name metric) wanted) metrics
  end.

(** Strictly ascending keys. *)
Definition key_lt (p q : string * string) : Prop :=
  String.compare (fst p) (fst q) = Lt.

(** The number of sleeps in a trace. *)
Fixpoint sleeps (events : list event) : nat :=
  match events with
  | [] => O
  | EvSleep _ :: rest => S (sleeps rest)
  | _ :: rest => sleeps rest
  end.

(** The events of scraping, at their first attempt, the endpoints whose
    requests are the network calls number [k], [k + 1], ... of the run. *)
Fixpoint scraped_events (texts : nat -> string) (k : nat)
    (endpoints : list string) : list event :=
  match endpoints with
  | [] => []
  | endpoint :: rest =>
      request_event endpoint :: EvParse (Some (texts k))
        :: scraped_events texts (S k) rest
  end.

(** A request that times out: an exception the retry loop does not
    catch. *)
Definition read_timeout : py_exc := PyExc OtherError "Read timed out".

Definition net_timeout (endpoint : string) (k : nat) : net_reply :=
  NetRaise read_timeout.

(** A 200 reply whose text is no exposition text. *)
Definition net_garbage (endpoint : string) (k : nat) : net_reply :=
  NetResponse 200 (list_byte_of_string "garbage").

(** The first network call of the run gets status 503, the later ones
    answer. *)
Definition net_unavailable_once (endpoint : string) (k : nat) : net_reply :=
  match k with
  | O => NetResponse 503 []
  | S _ => ok_reply
  end.

(** argparse on [-e http://172.17.0.1:9302,http://172.17.0.1:9303
    -l dp_id:1,port:3]. *)
Definition args_two_labels : list string :=
  ["-e"; "http://172.17.0.1:9302,http://172.17.0.1:9303";
   "-l"; "dp_id:1,port:3"].

Definition demo_argparse_labels (sys_args : list string)
  : argparse_exit + Namespace :=
  if decide (sys_args = args_two_labels) then
    inr (mkNamespace false
           (Some "http://172.17.0.1:9302,http://172.17.0.1:9303") None
           (Some "dp_id:1,port:3") None)
  else demo_argparse sys_args.

(** argparse on [-h]. *)
Definition args_help : list string := ["-h"].
Definition help_text : string :=
  "usage: fctl; Retrieve FAUCET/Gauge state using Prometheus variables.".

Definition demo_argparse_help (sys_args : list string)
  : argparse_exit + Namespace :=
  if decide (sys_args = args_help) then inl (ArgparseHelp help_text)
  else demo_argparse sys_args.

(** An endpoint read with [urlopen] whose file does not exist: every
    attempt raises [urllib.error.URLError]. *)
Definition file_endpoint : string := "file:///var/run/faucet/metrics.prom".
Definition url_error : py_exc :=
  PyExc OtherError "<urlopen error [Errno 2] No such file or directory>".

Definition net_url_error (endpoint : string) (k : nat) : net_reply :=
  NetRaise url_error.

Definition env_help : External :=
  demo_external net_ok demo_parse demo_argparse_help.
(** argparse on [-e file:///var/run/faucet/metrics.prom]. *)
Definition args_file_endpoint : list string := ["-e"; file_endpoint].

Definition demo_argparse_file (sys_args : list string)
  : argparse_exit + Namespace :=
  if decide (sys_args = args_file_endpoint) then
    inr (mkNamespace false (Some file_endpoint) None None None)
  else demo_argparse sys_args.

Definition env_url_error : External :=
  demo_external net_url_error demo_parse demo_argparse_file.
Definition env_timeout : External :=
  demo_external net_timeout demo_parse demo_argparse.
Definition env_garbage : External :=
  demo_external net_garbage demo_parse demo_argparse.
Definition env_unavailable_once : External :=
  demo_external net_unavailable_once demo_parse demo_argparse.
Definition env_labels : External :=
  demo_external net_ok demo_parse demo_argparse_labels.

(** A learned-MAC family, a learned-MAC family whose value is NaN, and
    [float_mac] plus one half. *)
Definition nan_mac_family : list Metric :=
  [mkMetric "learned_macs" [mkSample "learned_macs" ∅ S754_nan None]].
Definition float_mac_and_half : spec_float :=
  S754_finite false 6479410950644496 (-5).
Definition mac_sample : Sample :=
  mkSample "learned_macs" {[ "dp_id" := "1" ]} float_mac None.
Definition mac_family : list Metric := [mkMetric "learned_macs" [mac_sample]].

(** * Properties *)

(** ** decode_value *)

Lemma hex_digit_value (d : Z) :
  0 <= d < 16 -> hex_value (hex_digit d) = Some d.
Proof.
  intros Hd.
  assert (Hcases : d = 0 \/ d = 1 \/ d = 2 \/ d = 3 \/ d = 4 \/ d = 5 \/ d = 6
                   \/ d = 7 \/ d = 8 \/ d = 9 \/ d = 10 \/ d = 11 \/ d = 12
                   \/ d = 13 \/ d = 14 \/ d = 15) by lia.
  repeat (destruct Hcases as [-> | Hcases]; [reflexivity |]).
  subst d. reflexivity.
Qed.

Lemma format_02x_digits (octet : Z) :
  0 <= octet < 256 ->
  exists hi lo,
    format_02x octet = String hi (String lo EmptyString)
    /\ hex_value hi = Some (octet / 16)
    /\ hex_value lo = Some (octet mod 16).
Proof.
  intros Ho. exists (hex_digit (octet / 16)), (hex_digit (octet mod 16)).
  split; [reflexivity |].
  split; apply hex_digit_value.
  - split; [apply Z.div_pos; lia | apply Z.div_lt_upper_bound; lia].
  - apply Z.mod_pos_bound. lia.
Qed.

Lemma to_bytes_little_length (len : nat) (n : Z) :
  length (to_bytes_little len n) = len.
Proof.
  revert n. induction len as [| len IH]; intros n; simpl; [reflexivity |].
  now rewrite IH.
Qed.

Lemma to_bytes_little_range (len : nat) (n : Z) :
  Forall (fun octet => 0 <= octet < 256) (to_bytes_little len n).
Proof.
  revert n. induction len as [| len IH]; intros n; simpl; constructor.
  - apply Z.mod_pos_bound. lia.
  - apply IH.
Qed.

Lemma to_bytes_little_value (len : nat) (n : Z) :
  0 <= n < 256 ^ Z.of_nat len ->
  fold_right (fun octet acc => acc * 256 + octet) 0 (to_bytes_little len n) = n.
Proof.
  revert n. induction len as [| len IH]; intros n Hn.
  - simpl in *. lia.
  - cbn [to_bytes_little fold_right]. rewrite IH.
    + pose proof (Z.div_mod n 256). lia.
    + rewrite Nat2Z.inj_succ, Z.pow_succ_r in Hn by lia.
      split; [apply Z.div_pos; lia | apply Z.div_lt_upper_bound; lia].
Qed.

Lemma to_bytes_big_spec (n : Z) (len : nat) :
  0 <= n < 256 ^ Z.of_nat len ->
  exists octets,
    to_bytes_big n len = Ok octets
    /\ length octets = len
    /\ Forall (fun octet => 0 <= octet < 256) octets
    /\ from_bytes_big octets = n.
Proof.
  intros Hn. exists (rev (to_bytes_little len n)).
  unfold to_bytes_big.
  destruct (Z.ltb_spec n 0) as [Hneg | _]; [lia |].
  destruct (Z.leb_spec (256 ^ Z.of_nat len) n) as [Hbig | _]; [lia |].
  split; [reflexivity |]. split; [| split].
  - now rewrite length_rev, to_bytes_little_length.
  - apply Forall_rev, to_bytes_little_range.
  - unfold from_bytes_big. rewrite <- fold_left_rev_right, rev_involutive.
    now apply to_bytes_little_value.
Qed.

(** ** _get_samples_from_metrics *)

Lemma labels_match_spec (required sample_labels : gmap string string) :
  labels_match (Some required) sample_labels = true
  <-> forall k v, required !! k = Some v -> sample_labels !! k = Some v.
Proof.
  unfold labels_match, items_set. rewrite bool_decide_eq_true. split.
  - intros Hsub k v Hk.
    assert (Hin : (k, v) ∈ (list_to_set (map_to_list sample_labels)
                            : gset (string * string))).
    { apply Hsub. rewrite elem_of_list_to_set. by apply elem_of_map_to_list. }
    rewrite elem_of_list_to_set in Hin. by apply elem_of_map_to_list in Hin.
  - intros Hall [k v]. rewrite !elem_of_list_to_set, !elem_of_map_to_list.
    apply Hall.
Qed.

Lemma labels_match_larger (required sample_labels : gmap string string) :
  (size sample_labels < size required)%nat ->
  labels_match (Some required) sample_labels = false.
Proof.
  intros Hsize. apply not_true_is_false. intros Hmatch.
  pose proof (proj1 (labels_match_spec _ _) Hmatch) as Hall.
  assert (Hsub : required ⊆ sample_labels) by (by apply map_subseteq_spec).
  apply map_subseteq_size in Hsub. lia.
Qed.

Lemma keep_sample_ok (label_matches : option (gmap string string))
    (nonzero_only : bool) (sample : Sample) (keep : bool) :
  keep_sample label_matches nonzero_only sample = Ok keep ->
  keep = retained label_matches nonzero_only sample.
Proof.
  unfold keep_sample, retained.
  destruct (labels_match label_matches (labels sample)); cbn [andb].
  - destruct nonzero_only; cbn [negb orb].
    + destruct (py_int (value sample)); cbn [bind]; congruence.
    + congruence.
  - congruence.
Qed.

Lemma samples_loop_ok (label_matches : option (gmap string string))
    (nonzero_only : bool) (todo result found : list Sample) :
  samples_loop label_matches nonzero_only todo result = Ok found ->
  found = result ++ List.filter (retained label_matches nonzero_only) todo.
Proof.
  revert result. induction todo as [| sample rest IH]; intros result Hloop.
  - cbn in Hloop. rewrite app_nil_r. congruence.
  - cbn [samples_loop] in Hloop.
    destruct (keep_sample label_matches nonzero_only sample) as [keep |] eqn:Hkeep;
      cbn [bind] in Hloop; [| discriminate].
    apply keep_sample_ok in Hkeep. apply IH in Hloop.
    cbn [List.filter]. rewrite <- Hkeep.
    destruct keep; [by rewrite <- app_assoc in Hloop | exact Hloop].
Qed.

Lemma metrics_loop_ok (metric_name : option string)
    (label_matches : option (gmap string string)) (nonzero_only : bool)
    (todo : list Metric) (result found : list Sample) :
  metrics_loop metric_name label_matches nonzero_only todo result = Ok found ->
  found = result ++ List.filter (retained label_matches nonzero_only)
                      (selected_samples metric_name todo).
Proof.
  unfold selected_samples.
  revert result. induction todo as [| metric rest IH]; intros result Hloop.
  - cbn in Hloop. cbn. rewrite app_nil_r. congruence.
  - cbn [metrics_loop] in Hloop. cbn [List.filter].
    destruct (name_selected metric_name metric).
    + destruct (samples_loop label_matches nonzero_only (samples metric) result)
        as [result' |] eqn:Hsamples; cbn [bind] in Hloop; [| discriminate].
      apply samples_loop_ok in Hsamples. apply IH in Hloop.
      cbn [flat_map]. rewrite List.filter_app, app_assoc. congruence.
    + by apply IH.
Qed.

(** Without [nonzero_only] the filter never raises. *)
Lemma samples_loop_total (label_matches : option (gmap string string))
    (todo result : list Sample) :
  exists found, samples_loop label_matches false todo result = Ok found.
Proof.
  revert result. induction todo as [| sample rest IH]; intros result.
  - by exists result.
  - cbn [samples_loop]. unfold keep_sample.
    destruct (labels_match label_matches (labels sample)); cbn [bind]; apply IH.
Qed.

Lemma metrics_loop_total (metric_name : option string)
    (label_matches : option (gmap string string))
    (todo : list Metric) (result : list Sample) :
  exists found,
    metrics_loop metric_name label_matches false todo result = Ok found.
Proof.
  revert result. induction todo as [| metric rest IH]; intros result.
  - by exists result.
  - cbn [metrics_loop]. destruct (name_selected metric_name metric); [| apply IH].
    destruct (samples_loop_total label_matches (samples metric) result)
      as [result' ->].
    cbn [bind]. apply IH.
Qed.

Lemma get_samples_all_values (metrics : list Metric)
    (metric_name : option string) (label_matches : option (gmap string string)) :
  _get_samples_from_metrics metrics metric_name label_matches false
  = Ok (List.filter (fun sample => labels_match label_matches (labels sample))
          (selected_samples metric_name metrics)).
Proof.
  unfold _get_samples_from_metrics.
  destruct (metrics_loop_total metric_name label_matches metrics [])
    as [found Hfound].
  rewrite Hfound. apply metrics_loop_ok in Hfound. subst found. cbn [app].
  f_equal. apply List.filter_ext. intros sample. unfold retained.
  cbn [negb orb]. apply andb_true_r.
Qed.

Section Properties.
Context `{External}.

(** C6. For the learned-MAC metric, a value whose integer [n] satisfies
    [0 <= n < 2^48] is rendered as the colon-joined [format_02x] of six
    octets that are the big-endian representation of [n]; [format_02x]
    of an octet is its two lowercase hexadecimal digits; 0xB827EB608918
    gives b8:27:eb:60:89:18; and for any other metric name the value comes
    back unchanged, so that its string form is that of the raw value. *)
Theorem decode_value_learned_macs :
  (forall raw n,
      py_int raw = Ok n -> 0 <= n < 2 ^ 48 ->
      exists octets,
        decode_value (Some "learned_macs") raw
        = Ok (VStr (join ":" (map format_02x octets)))
        /\ length octets = 6%nat
        /\ Forall (fun octet => 0 <= octet < 256) octets
        /\ from_bytes_big octets = n)
  /\ (forall octet,
         0 <= octet < 256 ->
         exists hi lo,
           format_02x octet = String hi (String lo EmptyString)
           /\ hex_value hi = Some (octet / 16)
           /\ hex_value lo = Some (octet mod 16))
  /\ (py_int float_mac = Ok 0xB827EB608918
      /\ decode_value (Some "learned_macs") float_mac
         = Ok (VStr "b8:27:eb:60:89:18"))
  /\ (forall metric_name raw,
         metric_name <> Some "learned_macs" ->
         decode_value metric_name raw = Ok (VFloat raw)
         /\ str_value (VFloat raw) = str_float raw).
Proof.
  split; [| split; [| split]].
  - intros raw n Hint Hn.
    destruct (to_bytes_big_spec n 6) as (octets & Hbytes & Hlen & Hrange & Hval).
    { change (256 ^ Z.of_nat 6) with (2 ^ 48). exact Hn. }
    exists octets. unfold decode_value.
    rewrite bool_decide_eq_true_2 by reflexivity.
    rewrite Hint. cbn [bind]. rewrite Hbytes. cbn [bind]. auto.
  - exact format_02x_digits.
  - split; vm_compute; reflexivity.
  - intros metric_name raw Hname. unfold decode_value.
    rewrite bool_decide_eq_false_2 by exact Hname. split; reflexivity.
Qed.


Lemma selected_samples_families (metric_name : option string)
    (metrics : list Metric) :
  selected_samples metric_name metrics
  = flat_map samples (families_named metric_name metrics).
Proof.
  unfold selected_samples, families_named. f_equal.
  destruct metric_name as [wanted |].
  - apply List.filter_ext. intros metric. cbn [name_selected].
    destruct (String.eqb_spec (name metric) wanted) as [Heq | Hne].
    + by apply bool_decide_eq_true_2.
    + by apply bool_decide_eq_false_2.
  - induction metrics as [| metric rest IH]; [reflexivity |].
    cbn [List.filter name_selected]. by rewrite IH.
Qed.

(** C5. The label test holds exactly when every required pair is a pair
    of the sample's labels; an absent or empty requirement holds for every
    sample, and a requirement with more pairs than the sample has labels
    holds for none. The filter itself, run without [nonzero_only] on the
    families the metric name stands for, returns every sample when the
    requirement is absent or empty; under a requirement it returns, in
    order, exactly the samples whose labels hold every required pair, and
    never one with fewer labels than the requirement has pairs. Under
    [nonzero_only] it still returns only samples that pass the test. The
    runs on two families show a sample with an extra label retained
    (subset, not equality) and a value mismatch dropped. *)
Theorem label_filter_is_subset_test :
  (forall required sample_labels : gmap string string,
      labels_match (Some required) sample_labels = true
      <-> forall k v, required !! k = Some v -> sample_labels !! k = Some v)
  /\ (forall sample_labels : gmap string string,
         labels_match None sample_labels = true
         /\ labels_match (Some ∅) sample_labels = true)
  /\ (forall required sample_labels : gmap string string,
         (size sample_labels < size required)%nat ->
         labels_match (Some required) sample_labels = false)
  /\ (forall metrics metric_name label_matches,
         _get_samples_from_metrics metrics metric_name label_matches false
         = Ok (List.filter
                 (fun sample => labels_match label_matches (labels sample))
                 (flat_map samples (families_named metric_name metrics))))
  /\ (forall metrics metric_name,
         _get_samples_from_metrics metrics metric_name None false
         = Ok (flat_map samples (families_named metric_name metrics))
         /\ _get_samples_from_metrics metrics metric_name (Some ∅) false
            = Ok (flat_map samples (families_named metric_name metrics)))
  /\ (forall metrics metric_name (required : gmap string string),
         exists found,
           _get_samples_from_metrics metrics metric_name (Some required) false
           = Ok found
           /\ forall sample,
                In sample found
                <-> In sample
                      (flat_map samples (families_named metric_name metrics))
                    /\ forall k v,
                         required !! k = Some v ->
                         labels sample !! k = Some v)
  /\ (forall metrics metric_name (required : gmap string string) found sample,
         _get_samples_from_metrics metrics metric_name (Some required) false
         = Ok found ->
         (size (labels sample) < size required)%nat ->
         ~ In sample found)
  /\ (forall metrics metric_name label_matches found sample,
         _get_samples_from_metrics metrics metric_name label_matches true
         = Ok found ->
         In sample found ->
         In sample (flat_map samples (families_named metric_name metrics))
         /\ labels_match label_matches (labels sample) = true)
  /\ (_get_samples_from_metrics two_families None None false
      = Ok [dp1_sample; port3_sample]
      /\ _get_samples_from_metrics two_families None (Some ∅) false
         = Ok [dp1_sample; port3_sample]
      /\ _get_samples_from_metrics two_families None
           (Some {[ "dp_id" := "1" ]}) false
         = Ok [dp1_sample; port3_sample]
      /\ _get_samples_from_metrics two_families None
           (Some {[ "port" := "3" ]}) false
         = Ok [port3_sample]
      /\ _get_samples_from_metrics two_families None
           (Some {[ "dp_id" := "2" ]}) false
         = Ok []
      /\ _get_samples_from_metrics two_families None
           (Some {[ "dp_id" := "1"; "port" := "3"; "vlan" := "100" ]}) false
         = Ok []
      /\ _get_samples_from_metrics two_families (Some "dp_status") None false
         = Ok [dp1_sample]).
Proof.
  assert (Hfilter :
            forall metrics metric_name label_matches,
              _get_samples_from_metrics metrics metric_name label_matches false
              = Ok (List.filter
                      (fun sample => labels_match label_matches (labels sample))
                      (flat_map samples (families_named metric_name metrics)))).
  { intros metrics metric_name label_matches.
    rewrite get_samples_all_values. by rewrite selected_samples_families. }
  assert (Hall :
            forall (test : Sample -> bool) (l : list Sample),
              (forall sample, test sample = true) -> List.filter test l = l).
  { intros test l Htest. induction l as [| sample l IH]; [reflexivity |].
    cbn [List.filter]. by rewrite Htest, IH. }
  assert (Hempty :
            forall sample_labels : gmap string string,
              labels_match (Some ∅) sample_labels = true).
  { intros sample_labels. apply labels_match_spec. intros k v Hk.
    by rewrite lookup_empty in Hk. }
  split; [exact labels_match_spec |].
  split; [intros sample_labels; by split |].
  split; [exact labels_match_larger |].
  split; [exact Hfilter |].
  split.
  { intros metrics metric_name. rewrite !Hfilter.
    split; f_equal; apply Hall; intros sample; [reflexivity | apply Hempty]. }
  split.
  { intros metrics metric_name required. eexists. split; [apply Hfilter |].
    intros sample. rewrite List.filter_In, labels_match_spec. reflexivity. }
  split.
  { intros metrics metric_name required found sample Hfound Hsize Hin.
    rewrite Hfilter in Hfound. injection Hfound as <-.
    apply List.filter_In in Hin as [_ Hmatch].
    change (labels_match (Some required) (labels sample) = true) in Hmatch.
    pose proof (labels_match_larger required (labels sample) Hsize).
    congruence. }
  split.
  { intros metrics metric_name label_matches found sample Hfound Hin.
    apply metrics_loop_ok in Hfound. subst found. cbn [app] in Hin.
    rewrite selected_samples_families in Hin.
    apply List.filter_In in Hin as [Hsel Hretained].
    unfold retained in Hretained.
    by apply andb_true_iff in Hretained as [? _]. }
  repeat split; vm_compute; reflexivity.
Qed.

(** C7. With [nonzero_only] a sample is skipped exactly when its labels do
    not match or [int(value)] is zero, and kept exactly when its labels
    match and [int(value)] is a non-zero integer; without the flag the
    value is never looked at and the label test alone decides. A family
    with the values 0, 0.5 and 1 keeps only the last under the flag and
    all three without it. *)
Theorem nonzero_filter_truncates :
  (forall label_matches sample,
      keep_sample label_matches false sample
      = Ok (labels_match label_matches (labels sample)))
  /\ (forall label_matches sample,
         keep_sample label_matches true sample = Ok false
         <-> labels_match label_matches (labels sample) = false
             \/ py_int (value sample) = Ok 0)
  /\ (forall label_matches sample,
         keep_sample label_matches true sample = Ok true
         <-> labels_match label_matches (labels sample) = true
             /\ exists n, py_int (value sample) = Ok n /\ n <> 0)
  /\ (forall metrics metric_name label_matches,
         _get_samples_from_metrics metrics metric_name label_matches false
         = Ok (List.filter
                 (fun sample => labels_match label_matches (labels sample))
                 (selected_samples metric_name metrics)))
  /\ (forall metrics metric_name label_matches found,
         _get_samples_from_metrics metrics metric_name label_matches true
         = Ok found ->
         found = List.filter (retained label_matches true)
                   (selected_samples metric_name metrics))
  /\ (py_int float_zero = Ok 0 /\ py_int float_half = Ok 0)
  /\ _get_samples_from_metrics mixed_family (Some "dp_status") None true
     = Ok [dp_status_sample]
  /\ _get_samples_from_metrics mixed_family (Some "dp_status") None false
     = Ok [zero_sample; half_sample; dp_status_sample].
Proof.
  split.
  { intros label_matches sample. unfold keep_sample.
    by destruct (labels_match label_matches (labels sample)). }
  split.
  { intros label_matches sample. unfold keep_sample.
    destruct (labels_match label_matches (labels sample)).
    - destruct (py_int (value sample)) as [n | e]; cbn [bind].
      + destruct (Z.eqb_spec n 0) as [-> | Hn]; cbn [negb].
        * split; auto.
        * split; [discriminate |]. intros [? | Hz]; [discriminate |].
          congruence.
      + split; [discriminate |]. intros [? | ?]; discriminate.
    - split; auto. }
  split.
  { intros label_matches sample. unfold keep_sample.
    destruct (labels_match label_matches (labels sample)).
    - destruct (py_int (value sample)) as [n | e]; cbn [bind].
      + destruct (Z.eqb_spec n 0) as [-> | Hn]; cbn [negb].
        * split; [discriminate |]. intros [_ (m & Hm & Hne)]. congruence.
        * split; [| reflexivity]. intros _. split; [reflexivity |]. by exists n.
      + split; [discriminate |]. intros [_ (m & Hm & _)]. discriminate.
    - split; [discriminate |]. intros [? _]. discriminate. }
  split; [exact get_samples_all_values |].
  split.
  { intros metrics metric_name label_matches found Hfound.
    apply metrics_loop_ok in Hfound. by subst found. }
  split; [split; reflexivity |].
  split; vm_compute; reflexivity.
Qed.

(** ** scrape_prometheus *)

Lemma retry_loop_all_fail (errs : nat -> py_exc) (endpoint : string) (n : nat) :
  forall content err st,
    (forall k, (calls st <= k < calls st + n)%nat ->
               fails_with endpoint k (errs k)) ->
    retry_loop n endpoint content err st
    = (Ok (content,
           match n with
           | O => err
           | S _ => Some (errs (calls st + n - 1)%nat)
           end),
       mkState (calls st + n) (trace st ++ failed_attempts endpoint n)).
Proof.
  induction n as [| n IH]; intros content err st Hfail.
  - cbn. destruct st as [c t]. cbn. by rewrite Nat.add_0_r, app_nil_r.
  - cbn [retry_loop]. unfold attempt.
    destruct (Hfail (calls st)) as [Hbody Hcaught]; [lia |].
    rewrite Hbody, Hcaught. rewrite IH.
    + cbn [calls trace emit network_call]. f_equal.
      * f_equal. f_equal. destruct n; f_equal; f_equal; lia.
      * f_equal; [lia |]. unfold failed_attempts. cbn [repeat concat].
        by rewrite <- !app_assoc.
    + cbn [calls emit network_call]. intros k Hk. apply Hfail. lia.
Qed.

Lemma retry_loop_all_fall_through (endpoint : string) (n : nat) :
  forall content err st,
    (forall k, (calls st <= k < calls st + n)%nat ->
               try_body endpoint (net_reply_of endpoint k) = FallThrough) ->
    retry_loop n endpoint content err st
    = (Ok (content, err),
       mkState (calls st + n) (trace st ++ repeat (request_event endpoint) n)).
Proof.
  induction n as [| n IH]; intros content err st Hfall.
  - cbn. destruct st as [c t]. cbn. by rewrite Nat.add_0_r, app_nil_r.
  - cbn [retry_loop]. unfold attempt. rewrite Hfall by lia. rewrite IH.
    + cbn [calls trace network_call]. f_equal. f_equal; [lia |].
      cbn [repeat]. by rewrite <- app_assoc.
    + cbn [calls network_call]. intros k Hk. apply Hfall. lia.
Qed.

(** An attempt that succeeds after [n] failed ones ends the loop with its
    text, and with the error of the last failure still recorded. *)
Lemma retry_loop_success_after_failures (errs : nat -> py_exc)
    (endpoint text : string) (n more : nat) :
  forall content err st,
    (forall k, (calls st <= k < calls st + n)%nat ->
               fails_with endpoint k (errs k)) ->
    try_body endpoint (net_reply_of endpoint (calls st + n)) = Break text ->
    retry_loop (n + S more) endpoint content err st
    = (Ok (Some text,
           match n with
           | O => err
           | S _ => Some (errs (calls st + n - 1)%nat)
           end),
       mkState (S (calls st + n))
         (trace st ++ failed_attempts endpoint n ++ [request_event endpoint])).
Proof.
  induction n as [| n IH]; intros content err st Hfail Hbreak.
  - cbn [Nat.add retry_loop]. unfold attempt.
    rewrite Nat.add_0_r in Hbreak. rewrite Hbreak.
    cbn. by rewrite Nat.add_0_r.
  - cbn [Nat.add retry_loop]. unfold attempt.
    destruct (Hfail (calls st)) as [Hbody Hcaught]; [lia |].
    rewrite Hbody, Hcaught. rewrite IH.
    + cbn [calls trace emit network_call]. f_equal.
      * f_equal. f_equal. destruct n; f_equal; f_equal; lia.
      * f_equal; [lia |]. unfold failed_attempts. cbn [repeat concat].
        by rewrite <- !app_assoc.
    + cbn [calls emit network_call]. intros k Hk. apply Hfail. lia.
    + cbn [calls emit network_call].
      replace (S (calls st) + n)%nat with (calls st + S n)%nat by lia.
      exact Hbreak.
Qed.

(** Scraping a list of endpoints is scraping a prefix of it and, when
    that gave data, the rest. *)
Lemma endpoints_loop_app (retries : Z) (f : stream) (pre post : list string) :
  forall metrics st,
    endpoints_loop retries f (pre ++ post) metrics st
    = match endpoints_loop retries f pre metrics st with
      | (Ok (Some collected), st1) => endpoints_loop retries f post collected st1
      | other => other
      end.
Proof.
  induction pre as [| endpoint pre IH]; intros metrics st; [reflexivity |].
  cbn [app endpoints_loop].
  destruct (retry_loop (Z.to_nat retries) endpoint None None st)
    as [[[content [err |]] | e] st1]; try reflexivity.
  destruct (text_string_to_metric_families content) as [endpoint_metrics | e].
  - apply IH.
  - by destruct (caught_by [ValueError] e).
Qed.

(** An endpoint that answers at its first attempt has its text parsed,
    and the outcome of the parse decides how the scrape goes on. *)
Lemma first_attempt_success_is_parsed (retries : Z) (f : stream)
    (endpoint text : string) (rest : list string) (metrics : list Metric)
    (st : state) :
  0 < retries ->
  try_body endpoint (net_reply_of endpoint (calls st)) = Break text ->
  let st1 := emit (EvParse (Some text))
               (network_call (request_event endpoint) st) in
  endpoints_loop retries f (endpoint :: rest) metrics st
  = match text_string_to_metric_families (Some text) with
    | Ok endpoint_metrics =>
        endpoints_loop retries f rest (metrics ++ endpoint_metrics) st1
    | Raise err =>
        if caught_by [ValueError] err then
          (Ok None, emit (EvWrite f (exc_str err)) st1)
        else (Raise err, st1)
    end.
Proof.
  intros Hretries Hbreak st1. cbn [endpoints_loop].
  destruct (Z.to_nat retries) as [| n] eqn:Hn; [lia |].
  cbn [retry_loop]. unfold attempt. by rewrite Hbreak.
Qed.

(** An endpoint that answers only after [n >= 1] failed attempts is
    treated as failed: the error of the last failed attempt is written and
    the scrape returns [None] without parsing the text it retrieved. *)
Lemma success_after_failures_aborts (retries : Z) (f : stream)
    (endpoint text : string) (rest : list string) (metrics : list Metric)
    (st : state) (errs : nat -> py_exc) (n : nat) :
  (0 < n < Z.to_nat retries)%nat ->
  (forall k, (calls st <= k < calls st + n)%nat ->
             fails_with endpoint k (errs k)) ->
  try_body endpoint (net_reply_of endpoint (calls st + n)) = Break text ->
  endpoints_loop retries f (endpoint :: rest) metrics st
  = (Ok None,
     mkState (S (calls st + n))
       (trace st ++ failed_attempts endpoint n
          ++ [request_event endpoint;
              EvWrite f (exc_str (errs (calls st + n - 1)%nat))])).
Proof.
  intros Hn Hfail Hbreak. cbn [endpoints_loop].
  replace (Z.to_nat retries) with (n + S (Z.to_nat retries - n - 1))%nat by lia.
  rewrite (retry_loop_success_after_failures errs endpoint text) by assumption.
  destruct n as [| n']; [lia |].
  unfold emit. cbn [calls trace]. by rewrite <- !app_assoc.
Qed.

(** X20. With a retry count of at least one, when every attempt for an
    endpoint fails with an error the retry loop catches, exactly [retries]
    requests are made to it, each followed by a one-second sleep; then the
    text of the last error is written to [err_output_file] and the scrape
    returns [None]: nothing is parsed and no later endpoint is requested,
    wherever the endpoint stands in the list. *)
Theorem retry_exhaustion_aborts (retries : Z) (f : stream)
    (pre : list string) (endpoint : string) (rest : list string)
    (st st1 : state) (collected : list Metric) (errs : nat -> py_exc) :
  0 < retries ->
  scrape_prometheus pre retries f st = (Ok (Some collected), st1) ->
  (forall k, (calls st1 <= k < calls st1 + Z.to_nat retries)%nat ->
             fails_with endpoint k (errs k)) ->
  scrape_prometheus (pre ++ endpoint :: rest) retries f st
  = (Ok None,
     mkState (calls st1 + Z.to_nat retries)
       (trace st1 ++ failed_attempts endpoint (Z.to_nat retries)
          ++ [EvWrite f (exc_str (errs (calls st1 + Z.to_nat retries - 1)%nat))])).
Proof.
  intros Hretries Hpre Hfail. unfold scrape_prometheus in *.
  rewrite endpoints_loop_app, Hpre. cbn [endpoints_loop].
  rewrite (retry_loop_all_fail errs) by exact Hfail.
  destruct (Z.to_nat retries) as [| n] eqn:Hn; [lia |].
  unfold emit. cbn [calls trace]. by rewrite <- app_assoc.
Qed.

(** C10. When every attempt for an [http] endpoint gets a response whose
    status code is not OK, the retry loop makes its [retries] requests and
    nothing else (no sleep, no write), leaves both the content and the
    error absent, and the parser is then called with the absent content;
    only the parser's own outcome decides how the scrape goes on. *)
Theorem non_ok_status_reaches_parser (retries : Z) (f : stream)
    (endpoint : string) (rest : list string) (metrics : list Metric)
    (st : state) :
  String.prefix "http" endpoint = true ->
  (forall k, (calls st <= k < calls st + Z.to_nat retries)%nat ->
             exists status_code content,
               net_reply_of endpoint k = NetResponse status_code content
               /\ status_code <> codes_ok) ->
  let st_r := mkState (calls st + Z.to_nat retries)
                (trace st ++ repeat (EvGet endpoint) (Z.to_nat retries)) in
  retry_loop (Z.to_nat retries) endpoint None None st = (Ok (None, None), st_r)
  /\ endpoints_loop retries f (endpoint :: rest) metrics st
     = match text_string_to_metric_families None with
       | Ok endpoint_metrics =>
           endpoints_loop retries f rest (metrics ++ endpoint_metrics)
             (emit (EvParse None) st_r)
       | Raise err =>
           if caught_by [ValueError] err then
             (Ok None,
              emit (EvWrite f (exc_str err)) (emit (EvParse None) st_r))
           else (Raise err, emit (EvParse None) st_r)
       end.
Proof.
  intros Hhttp Hreply st_r.
  assert (Hloop : retry_loop (Z.to_nat retries) endpoint None None st
                  = (Ok (None, None), st_r)).
  { rewrite retry_loop_all_fall_through.
    - unfold st_r, request_event. by rewrite Hhttp.
    - intros k Hk. destruct (Hreply k Hk) as (status_code & content & -> & Hcode).
      unfold try_body. rewrite Hhttp.
      by destruct (Z.eqb_spec status_code codes_ok). }
  split; [exact Hloop |].
  cbn [endpoints_loop]. by rewrite Hloop.
Qed.

Lemma writes_app (a b : list event) : writes (a ++ b) = writes a ++ writes b.
Proof.
  induction a as [| ev a IH]; [reflexivity |].
  destruct ev; cbn [app writes]; by rewrite ?IH.
Qed.

Lemma writes_request (endpoint : string) : writes [request_event endpoint] = [].
Proof. unfold request_event. by destruct (String.prefix "http" endpoint). Qed.

(** The retry loop writes to no stream. *)
Lemma retry_loop_writes (endpoint : string) (n : nat) :
  forall content err st,
    writes (trace (snd (retry_loop n endpoint content err st)))
    = writes (trace st).
Proof.
  induction n as [| n IH]; intros content err st; [reflexivity |].
  cbn [retry_loop]. unfold attempt.
  assert (Hcall : writes (trace (network_call (request_event endpoint) st))
                  = writes (trace st)).
  { cbn [network_call trace]. by rewrite writes_app, writes_request, app_nil_r. }
  destruct (try_body endpoint (net_reply_of endpoint (calls st))) as [text | | e].
  - exact Hcall.
  - by rewrite IH.
  - destruct (caught_by [ConnectionError; ValueError] e); [| exact Hcall].
    rewrite IH. cbn [emit trace]. rewrite writes_app. cbn [writes].
    by rewrite app_nil_r.
Qed.

(** A scrape writes the text of one error to [err_output_file] when it
    returns [None], and writes nothing otherwise. *)
Lemma endpoints_loop_writes (retries : Z) (f : stream) (endpoints : list string) :
  forall metrics st,
    match endpoints_loop retries f endpoints metrics st with
    | (Ok None, st') =>
        exists text, writes (trace st') = writes (trace st) ++ [(f, text)]
    | (_, st') => writes (trace st') = writes (trace st)
    end.
Proof.
  induction endpoints as [| endpoint rest IH]; intros metrics st; [reflexivity |].
  cbn [endpoints_loop].
  pose proof (retry_loop_writes endpoint (Z.to_nat retries) None None st) as Hloop.
  destruct (retry_loop (Z.to_nat retries) endpoint None None st)
    as [[[content [err |]] | e] st1]; cbn [snd] in Hloop.
  - exists (exc_str err). cbn [emit trace]. by rewrite writes_app, Hloop.
  - assert (Hparse : writes (trace (emit (EvParse content) st1))
                     = writes (trace st)).
    { cbn [emit trace]. rewrite writes_app. cbn [writes].
      by rewrite app_nil_r. }
    destruct (text_string_to_metric_families content) as [endpoint_metrics | e].
    + specialize (IH (metrics ++ endpoint_metrics) (emit (EvParse content) st1)).
      destruct (endpoints_loop retries f rest (metrics ++ endpoint_metrics)
                  (emit (EvParse content) st1)) as [[[found |] | e] st'];
        by rewrite <- Hparse.
    + destruct (caught_by [ValueError] e); [| exact Hparse].
      exists (exc_str e). cbn [emit trace] in *.
      by rewrite writes_app, Hparse.
  - exact Hloop.
Qed.

(** C9, amended. [scrape_prometheus] writes its diagnostic to the stream
    it is given as [err_output_file], and [main] gives it standard output,
    the stream of the report. The two still never meet in one run: when a
    diagnostic is written the scrape returned [None] and [main] exits with
    status 1 without printing; when [main] prints the report, or ends with
    another exception, the scrape wrote nothing. *)
Theorem diagnostics_share_stdout_with_report (sys_args : list string)
    (st st1 : state) (endpoints report_metrics : list string)
    (label_matches : option (gmap string string)) (nonzero_only : bool)
    (display_labels : option (list string)) :
  parse_args sys_args st
  = (Ok (endpoints, report_metrics, label_matches, nonzero_only,
         display_labels), st1) ->
  match scrape_prometheus endpoints 3 Stdout st1 with
  | (Ok None, st2) =>
      (exists text, writes (trace st2) = writes (trace st1) ++ [(Stdout, text)])
      /\ main sys_args st = (Raise (PyExc (SystemExit 1) EmptyString), st2)
  | (Ok (Some metrics), st2) =>
      writes (trace st2) = writes (trace st1)
      /\ main sys_args st
         = match report_label_match_metrics (Some report_metrics) metrics
                   display_labels nonzero_only tab label_matches with
           | Ok report => (Ok (), print report st2)
           | Raise e => (Raise e, st2)
           end
  | (Raise e, st2) =>
      writes (trace st2) = writes (trace st1)
      /\ main sys_args st = (Raise e, st2)
  end.
Proof.
  intros Hparse. unfold main. rewrite Hparse.
  pose proof (endpoints_loop_writes 3 Stdout endpoints [] st1) as Hwrites.
  unfold scrape_prometheus.
  destruct (endpoints_loop 3 Stdout endpoints [] st1) as [[[metrics |] | e] st2];
    split; try exact Hwrites; reflexivity.
Qed.

(** ** report_label_match_metrics *)

Lemma report_samples_loop_plain (delim metric : string)
    (display_labels : option (list string)) (todo : list Sample) :
  metric <> "learned_macs" ->
  forall lines,
    report_samples_loop (Some metric) display_labels delim todo (RList lines)
    = Ok (RList (lines ++ plain_lines delim metric display_labels todo)).
Proof.
  intros Hmetric. induction todo as [| sample rest IH]; intros lines.
  - cbn. by rewrite app_nil_r.
  - cbn [report_samples_loop]. unfold report_sample, decode_value.
    rewrite bool_decide_eq_false_2 by congruence.
    cbn [bind]. rewrite IH. cbn [plain_lines map]. by rewrite <- app_assoc.
Qed.

(** A report on a single metric name is what the formatter is meant to
    give: one line per retained sample, joined with newlines. *)
Lemma single_metric_report (metric : string) (metrics : list Metric)
    (display_labels : option (list string)) (nonzero_only : bool)
    (delim : string) (label_matches : option (gmap string string))
    (found : list Sample) :
  metric <> "learned_macs" ->
  _get_samples_from_metrics metrics (Some metric) label_matches nonzero_only
  = Ok found ->
  report_label_match_metrics (Some [metric]) metrics display_labels
    nonzero_only delim label_matches
  = Ok (RStr (join newline (plain_lines delim metric display_labels found))).
Proof.
  intros Hmetric Hfound. unfold report_label_match_metrics.
  cbn [map report_metrics_loop]. rewrite Hfound. cbn [bind].
  by rewrite report_samples_loop_plain.
Qed.

(** Once [report_output] is a string, a retained sample of a later metric
    name cannot be appended. *)
Lemma report_sample_after_join (metric_name : option string)
    (display_labels : option (list string)) (delim text : string)
    (sample : Sample) (out : report_value) :
  report_sample metric_name display_labels delim (RStr text) sample <> Ok out.
Proof.
  unfold report_sample.
  destruct (decode_value metric_name (value sample)); cbn [bind]; discriminate.
Qed.

(** ** parse_args *)

Lemma labels_loop_raises (todo : list string) :
  forall label_matches e,
    labels_loop todo label_matches = Raise e -> exc_cls e = ValueError.
Proof.
  induction todo as [| label_value rest IH]; intros label_matches e Hraise.
  - discriminate.
  - cbn [labels_loop] in Hraise.
    destruct (split ":" label_value) as [| label [| val [| extra more]]];
      try (injection Hraise as <-; reflexivity).
    by apply IH in Hraise.
Qed.

(** Nothing the [try] block of [parse_args] raises is a [KeyError] or an
    [IndexError]: the handler that prints the usage never runs. *)
Lemma parse_args_handler_unreachable (sys_args : list string) (st : state) :
  parse_args sys_args st = parse_args_try sys_args st.
Proof.
  unfold parse_args.
  destruct (parse_args_try sys_args st) as [[q | e] st1] eqn:Htry; [reflexivity |].
  assert (Hcls : (exists code, exc_cls e = SystemExit code)
                 \/ exc_cls e = ValueError).
  { unfold parse_args_try in Htry.
    destruct (arg_parser_parse_args sys_args) as [[text | message] | args].
    - injection Htry as <- _. left. by eexists.
    - injection Htry as <- _. left. by eexists.
    - destruct (given (ns_labels args)) as [s |]; [| discriminate].
      destruct (labels_loop (split "," s) ∅) as [found | e'] eqn:Hloop;
        cbn [bind] in Htry; [discriminate |].
      injection Htry as <- _. right. by apply labels_loop_raises in Hloop. }
  unfold caught_by. cbn [existsb].
  by destruct Hcls as [[code ->] | ->].
Qed.

(** A label item without a colon makes the labels loop raise
    [ValueError]. *)
Lemma labels_loop_missing_colon (label_value : string) (rest : list string)
    (label_matches : gmap string string) :
  length (split ":" label_value) = 1%nat ->
  labels_loop (label_value :: rest) label_matches
  = Raise (PyExc ValueError "not enough values to unpack (expected 2, got 1)").
Proof.
  intros Hlen. cbn [labels_loop].
  by destruct (split ":" label_value) as [| label [| val more]].
Qed.

End Properties.

(** * The program on concrete inputs *)

(** C1. The first request to the endpoint is refused and the second one is
    answered with status 200 and decodable text. The retry loop stops at
    the second attempt with that text, but the scrape then writes the
    refused connection's error and returns [None]: the text is never
    parsed. *)
Theorem success_after_refusal_still_aborts :
  @try_body env_refused_once faucet_endpoint
     (@net_reply_of env_refused_once faucet_endpoint 1)
  = Break dp_status_text
  /\ @retry_loop env_refused_once 3 faucet_endpoint None None initial_state
     = (Ok (Some dp_status_text, Some connection_refused),
        mkState 2 [EvGet faucet_endpoint; EvSleep 1; EvGet faucet_endpoint])
  /\ @scrape_prometheus env_refused_once [faucet_endpoint] 3 Stderr
       initial_state
     = (Ok None,
        mkState 2 [EvGet faucet_endpoint; EvSleep 1; EvGet faucet_endpoint;
                   EvWrite Stderr "Connection refused"]).
Proof. repeat split; vm_compute; reflexivity. Qed.

(** C2. With two requested metric names the report breaks: a retained
    sample of the second name raises [AttributeError], because the newline
    join has already turned [report_output] into a string; and when the
    second name retains nothing, the join runs over the characters of the
    text of the first. A single name gives the line itself, and no name
    gives back the empty list. *)
Theorem second_metric_name_breaks_report :
  @report_label_match_metrics env_ok (Some ["dp_status"; "port_status"])
     two_families None false tab None
  = Raise (PyExc AttributeError "'str' object has no attribute 'append'")
  /\ @report_label_match_metrics env_ok (Some ["dp_status"; "no_such_metric"])
       two_families None false tab None
     = Ok (RStr (join newline
                   (map (fun c => String c EmptyString)
                      (list_ascii_of_string dp1_line))))
  /\ @report_label_match_metrics env_ok (Some ["dp_status"])
       two_families None false tab None
     = Ok (RStr dp1_line)
  /\ @report_label_match_metrics env_ok (Some [])
       two_families None false tab None
     = Ok (RList []).
Proof. repeat split; vm_compute; reflexivity. Qed.

(** C3. Without [-m], [parse_args] returns the empty list of metric names,
    for which the report is the empty list whatever was scraped: the run
    prints [[]] although the scrape holds a sample that passes the
    filters. *)
Theorem no_metrics_option_reports_nothing :
  @parse_args env_ok args_endpoint_only initial_state
  = (Ok ([faucet_endpoint], [], None, false, None), initial_state)
  /\ @scrape_prometheus env_ok [faucet_endpoint] 3 Stdout initial_state
     = (Ok (Some [dp_status_family]),
        mkState 1 [EvGet faucet_endpoint; EvParse (Some dp_status_text)])
  /\ _get_samples_from_metrics [dp_status_family] None None false
     = Ok [dp_status_sample]
  /\ @report_label_match_metrics env_ok (Some []) [dp_status_family]
       None false tab None
     = Ok (RList [])
  /\ @run env_ok args_endpoint_only
     = (0, mkState 1 [EvGet faucet_endpoint; EvParse (Some dp_status_text);
                      EvWrite Stdout ("[]" +:+ newline)]).
Proof. repeat split; vm_compute; reflexivity. Qed.

(** C4. For [-l dp_id], [parse_args] lets the [ValueError] of the tuple
    unpacking through: the usage text is written nowhere, and the process
    ends with the traceback of that exception. *)
Theorem label_without_colon_is_not_reported :
  @parse_args env_ok args_bad_label initial_state
  = (Raise (PyExc ValueError "not enough values to unpack (expected 2, got 1)"),
     initial_state)
  /\ @run env_ok args_bad_label
     = (1, mkState 0
             [EvWrite Stderr
                (@format_traceback env_ok
                   (PyExc ValueError
                      "not enough values to unpack (expected 2, got 1)"))]).
Proof. repeat split; vm_compute; reflexivity. Qed.

(** C8. Every attempt to read the endpoint fails: [urlopen] raises
    [URLError] for a file that does not exist. With the default retry
    count of 3 the scrape makes a single request and the exception leaves
    it: no second or third attempt, no sleep, nothing written to the error
    stream and no "no data" result; the endpoint after it is never
    requested and the run ends with a traceback. A request to an [http]
    endpoint that times out goes the same way. *)
Theorem transport_error_outside_except_is_not_retried :
  (forall k, @net_reply_of env_url_error file_endpoint k = NetRaise url_error)
  /\ caught_by [ConnectionError; ValueError] url_error = false
  /\ @scrape_prometheus env_url_error [file_endpoint; faucet_endpoint] 3 Stderr
       initial_state
     = (Raise url_error, mkState 1 [EvUrlopen file_endpoint])
  /\ @run env_url_error args_file_endpoint
     = (1, mkState 1 [EvUrlopen file_endpoint;
                      EvWrite Stderr (@format_traceback env_url_error url_error)])
  /\ @scrape_prometheus env_timeout [faucet_endpoint; gauge_endpoint] 3 Stderr
       initial_state
     = (Raise read_timeout, mkState 1 [EvGet faucet_endpoint]).
Proof. repeat split; vm_compute; reflexivity. Qed.

(** With a retry count of zero no attempt is made and no error is
    recorded: the parser is called with the absent content. *)
Lemma zero_retries_do_not_abort :
  (forall k, @fails_with env_refused_always faucet_endpoint k connection_refused)
  /\ @scrape_prometheus env_refused_always [faucet_endpoint] 0 Stderr
       initial_state
     = (Ok (Some []), mkState 0 [EvParse None]).
Proof. split; [intros k; split; reflexivity | vm_compute; reflexivity]. Qed.

(** C9 as stated fails: in a run of [main] whose endpoint refuses every
    connection, the error text is written to standard output, and nothing
    is written to standard error. *)
Lemma fetch_error_is_written_to_stdout :
  @run env_refused_always args_endpoint_only
  = (1, mkState 3
          [EvGet faucet_endpoint; EvSleep 1; EvGet faucet_endpoint; EvSleep 1;
           EvGet faucet_endpoint; EvSleep 1;
           EvWrite Stdout "Connection refused"]).
Proof. vm_compute; reflexivity. Qed.

Lemma decode_value_learned_macs_witness :
  exists octets,
    decode_value (Some "learned_macs") float_mac
    = Ok (VStr (join ":" (map format_02x octets)))
    /\ length octets = 6%nat
    /\ Forall (fun octet => 0 <= octet < 256) octets
    /\ from_bytes_big octets = 0xB827EB608918.
Proof.
  apply (proj1 (@decode_value_learned_macs env_ok) float_mac 0xB827EB608918);
    [reflexivity | lia].
Defined.

Lemma retry_exhaustion_aborts_witness :
  @scrape_prometheus env_refused_always
     ([] ++ faucet_endpoint :: [gauge_endpoint]) 3 Stderr initial_state
  = (Ok None,
     mkState (0 + Z.to_nat 3)
       ([] ++ failed_attempts faucet_endpoint (Z.to_nat 3)
          ++ [EvWrite Stderr (exc_str connection_refused)])).
Proof.
  apply (@retry_exhaustion_aborts env_refused_always 3 Stderr []
           faucet_endpoint [gauge_endpoint] initial_state initial_state []
           (fun _ => connection_refused)).
  - lia.
  - reflexivity.
  - intros k _. split; reflexivity.
Defined.

Lemma non_ok_status_reaches_parser_witness :
  @retry_loop env_unavailable (Z.to_nat 3) faucet_endpoint None None
     initial_state
  = (Ok (None, None), mkState 3 (repeat (EvGet faucet_endpoint) 3))
  /\ @endpoints_loop env_unavailable 3 Stderr [faucet_endpoint] [] initial_state
     = (Ok (Some []),
        mkState 3 (repeat (EvGet faucet_endpoint) 3 ++ [EvParse None])).
Proof.
  apply (@non_ok_status_reaches_parser env_unavailable 3 Stderr
           faucet_endpoint [] [] initial_state).
  - reflexivity.
  - intros k _. exists 503, []. split; [reflexivity | discriminate].
Defined.

Lemma diagnostics_share_stdout_with_report_witness :
  (exists text,
      writes (trace (snd (@scrape_prometheus env_refused_always
                            [faucet_endpoint] 3 Stdout initial_state)))
      = writes (trace initial_state) ++ [(Stdout, text)])
  /\ @main env_refused_always args_endpoint_only initial_state
     = (Raise (PyExc (SystemExit 1) EmptyString),
        snd (@scrape_prometheus env_refused_always [faucet_endpoint] 3 Stdout
               initial_state)).
Proof.
  apply (@diagnostics_share_stdout_with_report env_refused_always
           args_endpoint_only initial_state initial_state [faucet_endpoint] []
           None false None).
  reflexivity.
Defined.

Lemma label_filter_is_subset_test_witness :
  ~ In dp1_sample [port3_sample].
Proof.
  apply (proj1 (proj2 (proj2 (proj2 (proj2 (proj2 (proj2
           label_filter_is_subset_test))))))
           two_families None {[ "dp_id" := "1"; "port" := "3" ]}
           [port3_sample] dp1_sample).
  - vm_compute. reflexivity.
  - vm_compute. lia.
Defined.

Lemma nonzero_filter_truncates_witness :
  [dp_status_sample]
  = List.filter (retained None true)
      (selected_samples (Some "dp_status") mixed_family).
Proof.
  apply (proj1 (proj2 (proj2 (proj2 (proj2 nonzero_filter_truncates))))
           mixed_family (Some "dp_status") None [dp_status_sample]).
  vm_compute. reflexivity.
Defined.

(** * Further properties *)

(** ** decode_value: failures and distinct renderings *)

Lemma format_02x_inj (a b : Z) :
  0 <= a < 256 -> 0 <= b < 256 -> format_02x a = format_02x b -> a = b.
Proof.
  intros Ha Hb Heq. unfold format_02x in Heq.
  injection Heq as Hhi Hlo.
  assert (Hq : a / 16 = b / 16).
  { apply (f_equal hex_value) in Hhi.
    rewrite !hex_digit_value in Hhi;
      [congruence | |];
      (split; [apply Z.div_pos; lia | apply Z.div_lt_upper_bound; lia]). }
  assert (Hr : a mod 16 = b mod 16).
  { apply (f_equal hex_value) in Hlo.
    rewrite !hex_digit_value in Hlo;
      [congruence | |]; apply Z.mod_pos_bound; lia. }
  rewrite (Z.div_mod a 16), (Z.div_mod b 16) by lia. congruence.
Qed.

Lemma mac_text_inj (xs ys : list Z) :
  length xs = 6%nat -> length ys = 6%nat ->
  Forall (fun octet => 0 <= octet < 256) xs ->
  Forall (fun octet => 0 <= octet < 256) ys ->
  join ":" (map format_02x xs) = join ":" (map format_02x ys) ->
  xs = ys.
Proof.
  intros Hx Hy Hxs Hys Heq.
  destruct xs as [| x0 [| x1 [| x2 [| x3 [| x4 [| x5 [| ? ?]]]]]]];
    try discriminate.
  destruct ys as [| y0 [| y1 [| y2 [| y3 [| y4 [| y5 [| ? ?]]]]]]];
    try discriminate.
  repeat match goal with
         | Hall : Forall _ (_ :: _) |- _ => inversion_clear Hall
         end.
  cbv [join String.concat map format_02x String.append] in Heq.
  injection Heq as Ea0 Eb0 Ea1 Eb1 Ea2 Eb2 Ea3 Eb3 Ea4 Eb4 Ea5 Eb5.
  repeat f_equal; apply format_02x_inj; try assumption;
    unfold format_02x; congruence.
Qed.

Lemma decode_value_mac_ok (raw : spec_float) (shown : display_value) :
  decode_value (Some "learned_macs") raw = Ok shown ->
  exists n octets,
    py_int raw = Ok n /\ 0 <= n < 2 ^ 48
    /\ to_bytes_big n 6 = Ok octets
    /\ shown = VStr (join ":" (map format_02x octets)).
Proof.
  unfold decode_value. rewrite bool_decide_eq_true_2 by reflexivity.
  destruct (py_int raw) as [n | e]; cbn [bind]; [| discriminate].
  destruct (to_bytes_big n 6) as [octets | e] eqn:Hbytes; cbn [bind];
    [| discriminate].
  intros [= <-]. exists n, octets.
  assert (Hrange : 0 <= n < 2 ^ 48).
  { unfold to_bytes_big in Hbytes. change (256 ^ Z.of_nat 6) with (2 ^ 48) in Hbytes.
    destruct (Z.ltb_spec n 0); [discriminate |].
    destruct (Z.leb_spec (2 ^ 48) n); [discriminate | lia]. }
  auto.
Qed.

(** X1. For the learned-MAC metric [decode_value] raises instead of
    truncating or wrapping: [OverflowError] when the integer of the value
    is negative or at least [2^48] and when the value is infinite,
    [ValueError] when it is NaN; and it returns a result only when the
    integer lies in [[0, 2^48)]. *)
Theorem decode_value_rejects_out_of_range :
  (forall raw n,
      py_int raw = Ok n -> n < 0 \/ 2 ^ 48 <= n ->
      exists message,
        decode_value (Some "learned_macs") raw
        = Raise (PyExc OverflowError message))
  /\ (forall negative,
         exists message,
           decode_value (Some "learned_macs") (S754_infinity negative)
           = Raise (PyExc OverflowError message))
  /\ (exists message,
         decode_value (Some "learned_macs") S754_nan
         = Raise (PyExc ValueError message))
  /\ (forall raw shown,
         decode_value (Some "learned_macs") raw = Ok shown ->
         exists n, py_int raw = Ok n /\ 0 <= n < 2 ^ 48).
Proof.
  split; [| split; [| split]].
  - intros raw n Hint Hrange. unfold decode_value.
    rewrite bool_decide_eq_true_2 by reflexivity. rewrite Hint. cbn [bind].
    unfold to_bytes_big. change (256 ^ Z.of_nat 6) with (2 ^ 48).
    destruct (Z.ltb_spec n 0); [eauto |].
    destruct (Z.leb_spec (2 ^ 48) n); [eauto | lia].
  - intros negative. eexists. reflexivity.
  - eexists. reflexivity.
  - intros raw shown Hok.
    destruct (decode_value_mac_ok raw shown Hok) as (n & octets & Hn & Hr & _).
    eauto.
Qed.

(** X2. Two learned-MAC values that are rendered as the same text have
    the same integer: distinct addresses never share a rendering. The
    rendering is always 17 characters long. *)
Theorem decode_value_learned_macs_injective (raw1 raw2 : spec_float)
    (n1 n2 : Z) (text : string) :
  py_int raw1 = Ok n1 ->
  py_int raw2 = Ok n2 ->
  decode_value (Some "learned_macs") raw1 = Ok (VStr text) ->
  decode_value (Some "learned_macs") raw2 = Ok (VStr text) ->
  n1 = n2 /\ String.length text = 17%nat.
Proof.
  intros Hint1 Hint2 Hdec1 Hdec2.
  destruct (decode_value_mac_ok _ _ Hdec1) as (m1 & xs & Hm1 & Hr1 & Hb1 & Ht1).
  destruct (decode_value_mac_ok _ _ Hdec2) as (m2 & ys & Hm2 & Hr2 & Hb2 & Ht2).
  assert (m1 = n1) by congruence. assert (m2 = n2) by congruence. subst m1 m2.
  destruct (to_bytes_big_spec n1 6) as (xs' & Hxs & Hlx & Hfx & Hvx);
    [exact Hr1 |].
  destruct (to_bytes_big_spec n2 6) as (ys' & Hys & Hly & Hfy & Hvy);
    [exact Hr2 |].
  assert (xs' = xs) by congruence. assert (ys' = ys) by congruence.
  subst xs' ys'.
  injection Ht1 as Ht1. injection Ht2 as Ht2.
  assert (Hsame : xs = ys).
  { apply mac_text_inj; try assumption. congruence. }
  split; [congruence |].
  subst text.
  destruct xs as [| x0 [| x1 [| x2 [| x3 [| x4 [| x5 [| ? ?]]]]]]];
    try discriminate.
  reflexivity.
Qed.


(** ** _get_samples_from_metrics: when it returns, and filtering twice *)

Lemma keep_sample_returns (label_matches : option (gmap string string))
    (sample : Sample) :
  (exists keep, keep_sample label_matches true sample = Ok keep)
  <-> (labels_match label_matches (labels sample) = true ->
       exists n, py_int (value sample) = Ok n).
Proof.
  unfold keep_sample.
  destruct (labels_match label_matches (labels sample)).
  - destruct (py_int (value sample)) as [n | e]; cbn [bind].
    + split; eauto.
    + split.
      * intros [keep Hkeep]. discriminate.
      * intros Hconv. destruct (Hconv eq_refl) as [n Hn]. discriminate.
  - split; [discriminate | eauto].
Qed.

Lemma samples_loop_returns (label_matches : option (gmap string string))
    (nonzero_only : bool) (todo : list Sample) :
  forall result,
    (exists found,
        samples_loop label_matches nonzero_only todo result = Ok found)
    <-> Forall (fun sample =>
                  exists keep,
                    keep_sample label_matches nonzero_only sample = Ok keep)
          todo.
Proof.
  induction todo as [| sample rest IH]; intros result.
  - split; [constructor | eauto].
  - cbn [samples_loop].
    destruct (keep_sample label_matches nonzero_only sample) as [keep | e]
      eqn:Hkeep; cbn [bind].
    + rewrite IH. split.
      * intros Hrest. constructor; eauto.
      * intros Hall. by inversion Hall.
    + split.
      * intros [found Hfound]. discriminate.
      * intros Hall. inversion Hall as [| ? ? [keep Hk] ?]. congruence.
Qed.

Lemma metrics_loop_returns (metric_name : option string)
    (label_matches : option (gmap string string)) (nonzero_only : bool)
    (todo : list Metric) :
  forall result,
    (exists found,
        metrics_loop metric_name label_matches nonzero_only todo result
        = Ok found)
    <-> Forall (fun sample =>
                  exists keep,
                    keep_sample label_matches nonzero_only sample = Ok keep)
          (selected_samples metric_name todo).
Proof.
  unfold selected_samples.
  induction todo as [| metric rest IH]; intros result.
  - split; [constructor | eauto].
  - cbn [metrics_loop List.filter].
    destruct (name_selected metric_name metric); [| apply IH].
    cbn [flat_map]. rewrite Forall_app.
    destruct (samples_loop label_matches nonzero_only (samples metric) result)
      as [result' | e] eqn:Hsamples; cbn [bind].
    + rewrite IH. split.
      * intros Hrest. split; [| exact Hrest].
        apply (samples_loop_returns _ _ _ result). eauto.
      * intros [_ Hrest]. exact Hrest.
    + split.
      * intros [found Hfound]. discriminate.
      * intros [Hhere _].
        apply (samples_loop_returns _ _ _ result) in Hhere as [found Hfound].
        congruence.
Qed.

Lemma keep_sample_retained (label_matches : option (gmap string string))
    (nonzero_only : bool) (sample : Sample) :
  retained label_matches nonzero_only sample = true ->
  keep_sample label_matches nonzero_only sample = Ok true.
Proof.
  unfold retained, keep_sample. intros Hretained.
  apply andb_true_iff in Hretained as [-> Hvalue].
  destruct nonzero_only; [| reflexivity]. cbn [negb orb] in Hvalue.
  destruct (py_int (value sample)) as [n | e]; [| discriminate].
  cbn [bind]. by rewrite Hvalue.
Qed.

Lemma samples_loop_all_kept (label_matches : option (gmap string string))
    (nonzero_only : bool) (todo : list Sample) :
  Forall (fun sample => retained label_matches nonzero_only sample = true) todo ->
  forall result,
    samples_loop label_matches nonzero_only todo result = Ok (result ++ todo).
Proof.
  induction 1 as [| sample rest Hsample _ IH]; intros result.
  - cbn. by rewrite app_nil_r.
  - cbn [samples_loop]. rewrite (keep_sample_retained _ _ _ Hsample).
    cbn [bind]. rewrite IH. by rewrite <- app_assoc.
Qed.

(** X3. With [nonzero_only] the filter returns a list exactly when the
    value of every selected sample whose labels match converts to an
    integer; a NaN or infinite value of such a sample makes the whole call
    raise. A sample that is not selected or whose labels do not match is
    never converted. *)
Theorem nonzero_filter_returns_iff_values_convert :
  forall metrics metric_name label_matches,
    (exists found,
        _get_samples_from_metrics metrics metric_name label_matches true
        = Ok found)
    <-> (forall sample,
            In sample (selected_samples metric_name metrics) ->
            labels_match label_matches (labels sample) = true ->
            exists n, py_int (value sample) = Ok n).
Proof.
  intros metrics metric_name label_matches. unfold _get_samples_from_metrics.
  rewrite metrics_loop_returns, List.Forall_forall.
  split; intros Hall sample Hin.
  - by apply keep_sample_returns, Hall.
  - by apply keep_sample_returns, Hall.
Qed.

(** X4. Filtering is idempotent: the samples the filter returned, put in a
    family of any name and filtered again with the same label and non-zero
    constraints, come back unchanged. *)
Theorem filter_twice_is_filter_once (metrics : list Metric)
    (metric_name : option string) (label_matches : option (gmap string string))
    (nonzero_only : bool) (found : list Sample) (family : string) :
  _get_samples_from_metrics metrics metric_name label_matches nonzero_only
  = Ok found ->
  _get_samples_from_metrics [mkMetric family found] None label_matches
    nonzero_only
  = Ok found.
Proof.
  intros Hfound. apply metrics_loop_ok in Hfound. cbn [app] in Hfound.
  unfold _get_samples_from_metrics. cbn [metrics_loop name_selected samples].
  rewrite samples_loop_all_kept.
  - reflexivity.
  - subst found. apply List.Forall_forall. intros sample Hin.
    by apply List.filter_In in Hin as [_ ?].
Qed.

Section FurtherProperties.
Context `{External}.

(** ** scrape_prometheus: bounds, diagnostics, failures, aggregation *)

Lemma sleeps_app (a b : list event) : sleeps (a ++ b) = (sleeps a + sleeps b)%nat.
Proof.
  induction a as [| ev a IH]; [reflexivity |].
  destruct ev; cbn [app sleeps]; by rewrite ?IH.
Qed.

Lemma sleeps_request (endpoint : string) : sleeps [request_event endpoint] = O.
Proof. unfold request_event. by destruct (String.prefix "http" endpoint). Qed.

(** The retry loop makes at most [n] network calls, and every sleep
    follows a call of its own. *)
Lemma retry_loop_calls (endpoint : string) (n : nat) :
  forall content err st,
    let st' := snd (retry_loop n endpoint content err st) in
    (calls st <= calls st' <= calls st + n)%nat
    /\ (sleeps (trace st') + calls st <= sleeps (trace st) + calls st')%nat.
Proof.
  induction n as [| n IH]; intros content err st; [cbn; lia |].
  cbn [retry_loop]. unfold attempt.
  assert (Hcall : sleeps (trace (network_call (request_event endpoint) st))
                  = sleeps (trace st)).
  { cbn [network_call trace]. rewrite sleeps_app, sleeps_request. lia. }
  destruct (try_body endpoint (net_reply_of endpoint (calls st))) as [text | | e].
  - cbn [snd]. rewrite Hcall. cbn [network_call calls]. lia.
  - specialize (IH content err (network_call (request_event endpoint) st)).
    cbn zeta in IH. rewrite Hcall in IH. cbn [network_call calls] in IH.
    cbn zeta. lia.
  - destruct (caught_by [ConnectionError; ValueError] e).
    + specialize (IH content (Some e)
                    (emit (EvSleep 1) (network_call (request_event endpoint) st))).
      cbn zeta in IH. cbn [emit trace calls] in IH.
      rewrite sleeps_app in IH. rewrite Hcall in IH.
      cbn [sleeps network_call calls] in IH. cbn zeta. lia.
    + cbn [snd]. rewrite Hcall. cbn [network_call calls]. lia.
Qed.

(** X5. A scrape never makes more than [retries] network calls per
    endpoint, whatever the replies are, and it never sleeps more often than
    it makes calls: every sleep follows a request of its own. *)
Theorem scrape_requests_are_bounded :
  forall endpoints retries err_output_file st,
    let st' := snd (scrape_prometheus endpoints retries err_output_file st) in
    (calls st <= calls st'
     <= calls st + Z.to_nat retries * length endpoints)%nat
    /\ (sleeps (trace st') + calls st <= sleeps (trace st) + calls st')%nat.
Proof.
  intros endpoints retries f. unfold scrape_prometheus. generalize (@nil Metric).
  induction endpoints as [| endpoint rest IH]; intros metrics st; [cbn; lia |].
  cbn [endpoints_loop length].
  pose proof (retry_loop_calls endpoint (Z.to_nat retries) None None st) as Hloop.
  cbn zeta in Hloop.
  destruct (retry_loop (Z.to_nat retries) endpoint None None st)
    as [[[content [err |]] | e] st1]; cbn [snd] in Hloop.
  - cbn [snd emit calls trace]. rewrite sleeps_app. cbn [sleeps]. nia.
  - assert (Hparse : sleeps (trace (emit (EvParse content) st1))
                     = sleeps (trace st1)).
    { cbn [emit trace]. rewrite sleeps_app. cbn [sleeps]. lia. }
    destruct (text_string_to_metric_families content) as [endpoint_metrics | e].
    + specialize (IH (metrics ++ endpoint_metrics) (emit (EvParse content) st1)).
      cbn zeta in IH. rewrite Hparse in IH. cbn [emit calls] in IH.
      cbn zeta. nia.
    + destruct (caught_by [ValueError] e); cbn [snd].
      * cbn [emit calls trace] in *. rewrite sleeps_app. cbn [sleeps]. nia.
      * rewrite Hparse. cbn [emit calls]. nia.
  - cbn [snd]. nia.
Qed.

(** When the loop over the endpoints gives no data, the write of the
    diagnostic is the last thing it did. *)
Lemma endpoints_loop_none_ends_with_write (retries : Z) (f : stream)
    (endpoints : list string) :
  forall metrics st st',
    endpoints_loop retries f endpoints metrics st = (Ok None, st') ->
    exists earlier text, trace st' = earlier ++ [EvWrite f text].
Proof.
  induction endpoints as [| endpoint rest IH]; intros metrics st st' Hloop.
  - discriminate.
  - cbn [endpoints_loop] in Hloop.
    destruct (retry_loop (Z.to_nat retries) endpoint None None st)
      as [[[content [err |]] | e] st1].
    + injection Hloop as <-. by exists (trace st1), (exc_str err).
    + destruct (text_string_to_metric_families content) as [endpoint_metrics | e].
      * by apply IH in Hloop.
      * destruct (caught_by [ValueError] e); [| discriminate].
        injection Hloop as <-.
        by exists (trace (emit (EvParse content) st1)), (exc_str e).
    + discriminate.
Qed.

(** X6. Whatever the stream and the retry count, a scrape that returns
    "no data" has written exactly one text, to [err_output_file], as the
    last thing it did; a scrape that returns data, or that an exception
    leaves, has written nothing to any stream. *)
Theorem scrape_writes_one_diagnostic_iff_no_data :
  forall endpoints retries err_output_file st,
    match scrape_prometheus endpoints retries err_output_file st with
    | (Ok None, st') =>
        exists text,
          writes (trace st') = writes (trace st) ++ [(err_output_file, text)]
          /\ exists earlier,
               trace st' = earlier ++ [EvWrite err_output_file text]
    | (_, st') => writes (trace st') = writes (trace st)
    end.
Proof.
  intros endpoints retries f st. unfold scrape_prometheus.
  pose proof (endpoints_loop_writes retries f endpoints [] st) as Hwrites.
  pose proof (endpoints_loop_none_ends_with_write retries f endpoints [] st)
    as Hlast.
  destruct (endpoints_loop retries f endpoints [] st) as [[[found |] | e] st'];
    try exact Hwrites.
  destruct Hwrites as [text Htext].
  destruct (Hlast st' eq_refl) as (earlier & text' & Htrace).
  assert (text' = text).
  { rewrite Htrace, writes_app in Htext. cbn [writes] in Htext.
    apply (f_equal (@rev _)) in Htext. rewrite !rev_app_distr in Htext.
    cbn [rev app] in Htext. congruence. }
  subst text'. eauto.
Qed.

(** X7. An exception of an attempt that is neither a connection error
    nor a [ValueError] leaves the scrape at once: no retry, no sleep, no
    diagnostic, and what the earlier endpoints gave is lost. *)
Theorem uncaught_exception_leaves_scrape (retries : Z) (f : stream)
    (pre : list string) (endpoint : string) (rest : list string)
    (st st1 : state) (collected : list Metric) (e : py_exc) :
  0 < retries ->
  scrape_prometheus pre retries f st = (Ok (Some collected), st1) ->
  try_body endpoint (net_reply_of endpoint (calls st1)) = Raised e ->
  caught_by [ConnectionError; ValueError] e = false ->
  scrape_prometheus (pre ++ endpoint :: rest) retries f st
  = (Raise e, network_call (request_event endpoint) st1).
Proof.
  intros Hretries Hpre Hbody Hcaught. unfold scrape_prometheus in *.
  rewrite endpoints_loop_app, Hpre. cbn [endpoints_loop].
  destruct (Z.to_nat retries) as [| n] eqn:Hn; [lia |].
  cbn [retry_loop]. unfold attempt. by rewrite Hbody, Hcaught.
Qed.

(** X8. A [ValueError] of the exposition parser on the text of one
    endpoint aborts the scrape: its message is written to
    [err_output_file], the result is "no data" (the families of the earlier
    endpoints are dropped) and no later endpoint is requested. Any other
    exception of the parser leaves the scrape unwritten. *)
Theorem parse_error_aborts_scrape (retries : Z) (f : stream)
    (pre : list string) (endpoint text : string) (rest : list string)
    (st st1 : state) (collected : list Metric) (e : py_exc) :
  0 < retries ->
  scrape_prometheus pre retries f st = (Ok (Some collected), st1) ->
  try_body endpoint (net_reply_of endpoint (calls st1)) = Break text ->
  text_string_to_metric_families (Some text) = Raise e ->
  scrape_prometheus (pre ++ endpoint :: rest) retries f st
  = if caught_by [ValueError] e then
      (Ok None,
       mkState (S (calls st1))
         (trace st1 ++ [request_event endpoint; EvParse (Some text);
                        EvWrite f (exc_str e)]))
    else
      (Raise e,
       mkState (S (calls st1))
         (trace st1 ++ [request_event endpoint; EvParse (Some text)])).
Proof.
  intros Hretries Hpre Hbody Hparse. unfold scrape_prometheus in *.
  rewrite endpoints_loop_app, Hpre.
  rewrite first_attempt_success_is_parsed with (text := text) by assumption.
  rewrite Hparse. unfold emit, network_call. cbn [calls trace].
  destruct (caught_by [ValueError] e); by rewrite <- ?app_assoc.
Qed.

Lemma endpoints_loop_first_attempts (texts : nat -> string)
    (fams : nat -> list Metric) (retries : Z) (f : stream)
    (endpoints : list string) :
  0 < retries ->
  forall metrics st,
    (forall k endpoint,
        endpoints !! k = Some endpoint ->
        try_body endpoint (net_reply_of endpoint (calls st + k)%nat)
        = Break (texts (calls st + k)%nat)
        /\ text_string_to_metric_families (Some (texts (calls st + k)%nat))
           = Ok (fams (calls st + k)%nat)) ->
    endpoints_loop retries f endpoints metrics st
    = (Ok (Some (metrics ++ flat_map fams (seq (calls st) (length endpoints)))),
       mkState (calls st + length endpoints)
         (trace st ++ scraped_events texts (calls st) endpoints)).
Proof.
  intros Hretries.
  induction endpoints as [| endpoint rest IH]; intros metrics st Hall.
  - cbn. destruct st as [c t]. cbn. by rewrite Nat.add_0_r, !app_nil_r.
  - destruct (Hall O endpoint eq_refl) as [Hbody Hparse].
    rewrite Nat.add_0_r in Hbody, Hparse.
    rewrite first_attempt_success_is_parsed with (text := texts (calls st))
      by assumption.
    rewrite Hparse. rewrite IH.
    + cbn [emit network_call calls trace length seq flat_map scraped_events].
      f_equal.
      * by rewrite <- app_assoc.
      * f_equal; [lia |]. by rewrite <- !app_assoc.
    + cbn [emit network_call calls]. intros k endpoint' Hk.
      replace (S (calls st) + k)%nat with (calls st + S k)%nat by lia.
      by apply Hall.
Qed.

(** X9. When every endpoint answers at its first attempt and its text
    parses, the scrape returns the families of all endpoints, concatenated
    in the order of the endpoint list, after exactly one request and one
    parse per endpoint and without sleeping or writing. *)
Theorem scrape_collects_in_endpoint_order (texts : nat -> string)
    (fams : nat -> list Metric) (retries : Z) (f : stream)
    (endpoints : list string) :
  0 < retries ->
  (forall k endpoint,
      endpoints !! k = Some endpoint ->
      try_body endpoint (net_reply_of endpoint k) = Break (texts k)
      /\ text_string_to_metric_families (Some (texts k)) = Ok (fams k)) ->
  scrape_prometheus endpoints retries f initial_state
  = (Ok (Some (flat_map fams (seq 0 (length endpoints)))),
     mkState (length endpoints) (scraped_events texts 0 endpoints)).
Proof.
  intros Hretries Hall. unfold scrape_prometheus.
  by rewrite (endpoints_loop_first_attempts texts fams).
Qed.

Lemma retry_loop_fall_through_then_break (endpoint text : string)
    (n more : nat) :
  forall content err st,
    (forall k, (calls st <= k < calls st + n)%nat ->
               try_body endpoint (net_reply_of endpoint k) = FallThrough) ->
    try_body endpoint (net_reply_of endpoint (calls st + n)) = Break text ->
    retry_loop (n + S more) endpoint content err st
    = (Ok (Some text, err),
       mkState (S (calls st + n))
         (trace st ++ repeat (request_event endpoint) (S n))).
Proof.
  induction n as [| n IH]; intros content err st Hfall Hbreak.
  - cbn [Nat.add retry_loop]. unfold attempt.
    rewrite Nat.add_0_r in Hbreak. rewrite Hbreak.
    cbn. by rewrite Nat.add_0_r.
  - cbn [Nat.add retry_loop]. unfold attempt. rewrite Hfall by lia.
    rewrite IH.
    + cbn [network_call calls trace]. f_equal. f_equal; [lia |].
      cbn [repeat]. by rewrite <- app_assoc.
    + cbn [network_call calls]. intros k Hk. apply Hfall. lia.
    + cbn [network_call calls].
      replace (S (calls st) + n)%nat with (calls st + S n)%nat by lia.
      exact Hbreak.
Qed.

(** X10. Responses with a status other than OK do not spoil a later
    success: when an [http] endpoint answers [n] times with such a status
    and then, within the retry count, with a decodable OK response, its
    text is parsed after [n + 1] requests and no sleep, and the scrape goes
    on as the parse decides. *)
Theorem non_ok_replies_before_ok_are_harmless (retries : Z) (f : stream)
    (endpoint text : string) (rest : list string) (metrics : list Metric)
    (st : state) (n : nat) :
  String.prefix "http" endpoint = true ->
  (n < Z.to_nat retries)%nat ->
  (forall k, (calls st <= k < calls st + n)%nat ->
             exists status_code content,
               net_reply_of endpoint k = NetResponse status_code content
               /\ status_code <> codes_ok) ->
  try_body endpoint (net_reply_of endpoint (calls st + n)) = Break text ->
  let st2 := mkState (S (calls st + n))
               (trace st ++ repeat (EvGet endpoint) (S n)
                  ++ [EvParse (Some text)]) in
  endpoints_loop retries f (endpoint :: rest) metrics st
  = match text_string_to_metric_families (Some text) with
    | Ok endpoint_metrics =>
        endpoints_loop retries f rest (metrics ++ endpoint_metrics) st2
    | Raise err =>
        if caught_by [ValueError] err then
          (Ok None, emit (EvWrite f (exc_str err)) st2)
        else (Raise err, st2)
    end.
Proof.
  intros Hhttp Hn Hreply Hbreak st2. cbn [endpoints_loop].
  replace (Z.to_nat retries) with (n + S (Z.to_nat retries - n - 1))%nat by lia.
  rewrite (retry_loop_fall_through_then_break endpoint text).
  - unfold request_event. rewrite Hhttp.
    assert (Hst : emit (EvParse (Some text))
                    (mkState (S (calls st + n))
                       (trace st ++ repeat (EvGet endpoint) (S n)))
                  = st2).
    { unfold emit, st2. cbn [calls trace]. by rewrite <- app_assoc. }
    by rewrite Hst.
  - intros k Hk. destruct (Hreply k Hk) as (status_code & content & -> & Hcode).
    unfold try_body. rewrite Hhttp.
    by destruct (Z.eqb_spec status_code codes_ok).
  - exact Hbreak.
Qed.

(** ** get_samples *)

(** X11. [get_samples] returns the filter's result on what the scrape
    collected, and it reports a failed scrape on standard output: when it
    returns [None] exactly one text was written, to standard output; when
    it returns samples, or raises, nothing was written. *)
Theorem get_samples_outcomes :
  forall endpoints metric_name label_matches nonzero_only retries st,
    match get_samples endpoints metric_name label_matches nonzero_only
            retries st with
    | (Ok None, st') =>
        scrape_prometheus endpoints retries Stdout st = (Ok None, st')
        /\ exists text, writes (trace st') = writes (trace st) ++ [(Stdout, text)]
    | (Ok (Some found), st') =>
        writes (trace st') = writes (trace st)
        /\ exists metrics,
             scrape_prometheus endpoints retries Stdout st
             = (Ok (Some metrics), st')
             /\ found = List.filter (retained label_matches nonzero_only)
                          (selected_samples metric_name metrics)
    | (Raise e, st') => writes (trace st') = writes (trace st)
    end.
Proof.
  intros endpoints metric_name label_matches nonzero_only retries st.
  unfold get_samples, scrape_prometheus.
  pose proof (endpoints_loop_writes retries Stdout endpoints [] st) as Hwrites.
  destruct (endpoints_loop retries Stdout endpoints [] st)
    as [[[metrics |] | e] st']; [| by split | exact Hwrites].
  destruct (_get_samples_from_metrics metrics metric_name label_matches
              nonzero_only) as [found | e] eqn:Hfound; cbn [bind];
    [| exact Hwrites].
  split; [exact Hwrites |]. exists metrics. split; [reflexivity |].
  apply metrics_loop_ok in Hfound. by subst found.
Qed.

End FurtherProperties.

(** ** The label list of a report line *)

Lemma ascii_compare_refl (a : ascii) : Ascii.compare a a = Eq.
Proof. unfold Ascii.compare. apply N.compare_refl. Qed.

Lemma string_compare_lt_trans (a b c : string) :
  String.compare a b = Lt -> String.compare b c = Lt -> String.compare a c = Lt.
Proof.
  revert b c. induction a as [| x a IH]; intros [| y b] [| z c]; cbn;
    try discriminate; try reflexivity.
  destruct (Ascii.compare x y) eqn:Hxy; try discriminate;
    destruct (Ascii.compare y z) eqn:Hyz; try discriminate; intros Hab Hbc.
  - apply Ascii.compare_eq_iff in Hxy, Hyz. subst y z.
    rewrite ascii_compare_refl. by apply IH with b.
  - apply Ascii.compare_eq_iff in Hxy. subst y. by rewrite Hyz.
  - apply Ascii.compare_eq_iff in Hyz. subst z. by rewrite Hxy.
  - unfold Ascii.compare in *. rewrite N.compare_lt_iff in *.
    assert (Hxz : (N_of_ascii x < N_of_ascii z)%N) by lia.
    apply N.compare_lt_iff in Hxz. by rewrite Hxz.
Qed.

Lemma pair_leb_total (p q : string * string) :
  pair_leb p q = false -> pair_leb q p = true.
Proof.
  unfold pair_leb. rewrite (String.compare_antisym (fst q) (fst p)).
  destruct (String.compare (fst p) (fst q)); cbn [CompOpp]; try done.
  intros Hpq.
  destruct (String.leb_total (snd p) (snd q)) as [Hle | Hle]; [congruence | exact Hle].
Qed.

Lemma insert_sorted_perm (p : string * string) (l : list (string * string)) :
  insert_sorted p l ≡ₚ p :: l.
Proof.
  induction l as [| q l IH]; [reflexivity |]. cbn [insert_sorted].
  destruct (pair_leb p q); [reflexivity |].
  rewrite IH. apply Permutation_swap.
Qed.

Lemma sorted_perm (l : list (string * string)) : sorted l ≡ₚ l.
Proof.
  induction l as [| p l IH]; [reflexivity |].
  unfold sorted in *. cbn [fold_right]. by rewrite insert_sorted_perm, IH.
Qed.

Lemma insert_sorted_Sorted (p : string * string) (l : list (string * string)) :
  Sorted (fun a b => pair_leb a b = true) l ->
  Sorted (fun a b => pair_leb a b = true) (insert_sorted p l).
Proof.
  induction l as [| q l IH]; intros Hsorted; cbn [insert_sorted].
  - repeat constructor.
  - destruct (pair_leb p q) eqn:Hpq.
    + constructor; [exact Hsorted | by constructor].
    + apply pair_leb_total in Hpq. inversion_clear Hsorted as [| ? ? Hl Hhd].
      constructor; [by apply IH |].
      destruct l as [| r l]; cbn [insert_sorted].
      * by constructor.
      * destruct (pair_leb p r); constructor; [exact Hpq |].
        by inversion_clear Hhd.
Qed.

Lemma sorted_Sorted (l : list (string * string)) :
  Sorted (fun a b => pair_leb a b = true) (sorted l).
Proof.
  induction l as [| p l IH]; [constructor |].
  unfold sorted in *. cbn [fold_right]. by apply insert_sorted_Sorted.
Qed.

Lemma Sorted_strict_keys (l : list (string * string)) :
  NoDup (l.*1) ->
  Sorted (fun a b => pair_leb a b = true) l ->
  Sorted key_lt l.
Proof.
  induction l as [| p l IH]; intros Hnodup Hsorted; [constructor |].
  cbn [fmap list_fmap] in Hnodup. apply NoDup_cons in Hnodup as [Hfresh Hnodup].
  inversion_clear Hsorted as [| ? ? Hl Hhd].
  constructor; [by apply IH |].
  destruct l as [| q l]; constructor.
  inversion_clear Hhd as [| ? ? Hpq]. unfold pair_leb in Hpq. unfold key_lt.
  destruct (String.compare (fst p) (fst q)) eqn:Hcmp; try done.
  apply String.compare_eq_iff in Hcmp. contradict Hfresh.
  rewrite Hcmp. cbn. by left.
Qed.

Lemma StronglySorted_filter_keeps {A} (R : A -> A -> Prop) (P : A -> Prop)
    `{forall x, Decision (P x)} (l : list A) :
  StronglySorted R l -> StronglySorted R (filter P l).
Proof.
  induction 1 as [| x l Hl IH Hall]; [constructor |].
  rewrite filter_cons. destruct (decide (P x)); [| exact IH].
  constructor; [exact IH |].
  apply List.Forall_forall. intros y Hy.
  apply list_elem_of_In, list_elem_of_filter in Hy as [_ Hy].
  rewrite List.Forall_forall in Hall. by apply Hall, list_elem_of_In.
Qed.

Section ReportProperties.
Context `{External}.

(** X12. The label list of a report line holds exactly the pairs of the
    sample's labels whose key is displayed (every key when
    [display_labels] is absent or empty), each once, in strictly ascending
    order of the keys: the line does not depend on the order in which the
    label mapping is iterated. *)
Theorem sorted_labels_are_sorted_and_complete :
  forall display_labels (sample_labels : gmap string string),
    StronglySorted key_lt (sorted_labels_of display_labels sample_labels)
    /\ (forall k v,
           (k, v) ∈ sorted_labels_of display_labels sample_labels
           <-> sample_labels !! k = Some v
               /\ label_displayed display_labels k = true)
    /\ (forall k,
           label_displayed None k = true
           /\ label_displayed (Some []) k = true).
Proof.
  intros display_labels sample_labels. unfold sorted_labels_of.
  split; [| split].
  - apply StronglySorted_filter_keeps.
    apply Sorted_StronglySorted.
    + intros p q r. unfold key_lt. apply string_compare_lt_trans.
    + apply Sorted_strict_keys; [| apply sorted_Sorted].
      rewrite sorted_perm. apply NoDup_fst_map_to_list.
  - intros k v. rewrite list_elem_of_filter, sorted_perm, elem_of_map_to_list.
    cbn [fst]. tauto.
  - done.
Qed.

Lemma report_samples_loop_lines (metric delim : string)
    (display_labels : option (list string)) (todo : list Sample)
    (shown : list display_value) :
  Forall2 (fun sample v => decode_value (Some metric) (value sample) = Ok v)
    todo shown ->
  forall lines,
    report_samples_loop (Some metric) display_labels delim todo (RList lines)
    = Ok (RList
            (lines
               ++ zip_with
                    (fun sample v =>
                       report_line delim metric
                         (sorted_labels_of display_labels (labels sample)) v)
                    todo shown)).
Proof.
  induction 1 as [| sample v rest shown Hv _ IH]; intros lines.
  - cbn. by rewrite app_nil_r.
  - cbn [report_samples_loop]. unfold report_sample. rewrite Hv. cbn [bind].
    rewrite IH. cbn [zip_with]. by rewrite <- app_assoc.
Qed.

(** X13. A report on one metric name, the learned-MAC metric included,
    whose retained samples all decode, is the newline join of one line per
    retained sample, in the filter's order: the name, the sorted label
    list and the decoded value, separated by the delimiter. *)
Theorem single_metric_report_lines (metric : string) (metrics : list Metric)
    (display_labels : option (list string)) (nonzero_only : bool)
    (delim : string) (label_matches : option (gmap string string))
    (found : list Sample) (shown : list display_value) :
  _get_samples_from_metrics metrics (Some metric) label_matches nonzero_only
  = Ok found ->
  Forall2 (fun sample v => decode_value (Some metric) (value sample) = Ok v)
    found shown ->
  report_label_match_metrics (Some [metric]) metrics display_labels
    nonzero_only delim label_matches
  = Ok (RStr (join newline
                (zip_with
                   (fun sample v =>
                      join delim
                        [metric;
                         str_pairs
                           (sorted_labels_of display_labels (labels sample));
                         str_value v])
                   found shown)))
  /\ length (zip_with
               (fun sample v =>
                  join delim
                    [metric;
                     str_pairs
                       (sorted_labels_of display_labels (labels sample));
                     str_value v])
               found shown)
     = length found.
Proof.
  intros Hfound Hshown. split.
  - unfold report_label_match_metrics. cbn [map report_metrics_loop].
    rewrite Hfound. cbn [bind].
    by rewrite (report_samples_loop_lines metric delim display_labels found shown).
  - rewrite length_zip_with. apply Forall2_length in Hshown. lia.
Qed.

Lemma report_samples_loop_raises (metric_name : option string)
    (display_labels : option (list string)) (delim : string)
    (todo : list Sample) (sample : Sample) (e : py_exc) :
  In sample todo ->
  decode_value metric_name (value sample) = Raise e ->
  forall report_output,
    exists e',
      report_samples_loop metric_name display_labels delim todo report_output
      = Raise e'.
Proof.
  intros Hin Hdecode.
  induction todo as [| first rest IH]; intros report_output; [destruct Hin |].
  cbn [report_samples_loop].
  destruct (report_sample metric_name display_labels delim report_output first)
    as [out | e'] eqn:Hfirst; cbn [bind]; [| eauto].
  destruct Hin as [-> | Hin]; [| by apply IH].
  unfold report_sample in Hfirst. rewrite Hdecode in Hfirst. discriminate.
Qed.

(** X14. One retained sample whose value cannot be decoded (a learned-MAC
    value that is negative, at least [2^48], infinite or NaN) makes the
    whole report raise: no line of it is returned. *)
Theorem undecodable_value_fails_report (metric : string)
    (others : list string) (metrics : list Metric)
    (display_labels : option (list string)) (nonzero_only : bool)
    (delim : string) (label_matches : option (gmap string string))
    (found : list Sample) (sample : Sample) (e : py_exc) :
  _get_samples_from_metrics metrics (Some metric) label_matches nonzero_only
  = Ok found ->
  In sample found ->
  decode_value (Some metric) (value sample) = Raise e ->
  exists e',
    report_label_match_metrics (Some (metric :: others)) metrics
      display_labels nonzero_only delim label_matches
    = Raise e'.
Proof.
  intros Hfound Hin Hdecode. unfold report_label_match_metrics.
  cbn [map report_metrics_loop]. rewrite Hfound. cbn [bind].
  destruct (report_samples_loop_raises (Some metric) display_labels delim
              found sample e Hin Hdecode (RList [])) as [e' ->].
  cbn [bind]. eauto.
Qed.

End ReportProperties.

(** ** parse_args: lists, labels and failures *)

Lemma has_char_app (c : ascii) (a b : string) :
  has_char c (a +:+ b) = has_char c a || has_char c b.
Proof.
  induction a as [| x a IH]; [reflexivity |].
  change (String x a +:+ b) with (String x (a +:+ b)).
  cbn [has_char]. rewrite IH. by rewrite orb_assoc.
Qed.

Lemma split_nonempty (sep : ascii) (s : string) : split sep s <> [].
Proof.
  destruct s as [| c s]; cbn [split]; [done |].
  destruct (Ascii.eqb c sep); [done |]. by destruct (split sep s).
Qed.

(** ['sep'.join(s.split('sep')) == s] *)
Lemma join_split (sep : ascii) (s : string) :
  join (String sep EmptyString) (split sep s) = s.
Proof.
  unfold join. induction s as [| c s IH]; [reflexivity |]. cbn [split].
  pose proof (split_nonempty sep s) as Hne.
  destruct (split sep s) as [| token tokens]; [done |].
  destruct (Ascii.eqb_spec c sep) as [-> | Hc].
  - transitivity
      (String sep (String.concat (String sep EmptyString) (token :: tokens)));
      [reflexivity | by rewrite IH].
  - transitivity
      (String c (String.concat (String sep EmptyString) (token :: tokens)));
      [by destruct tokens | by rewrite IH].
Qed.

Lemma split_tokens_free (sep : ascii) (s : string) :
  Forall (fun token => has_char sep token = false) (split sep s).
Proof.
  induction s as [| c s IH]; [by repeat constructor |]. cbn [split].
  destruct (Ascii.eqb_spec c sep) as [-> | Hc].
  - by constructor.
  - pose proof (split_nonempty sep s) as Hne.
    destruct (split sep s) as [| token tokens]; [done |].
    inversion_clear IH as [| ? ? Htoken Htokens]. constructor; [| done].
    cbn [has_char]. rewrite Htoken.
    by destruct (Ascii.eqb_spec c sep).
Qed.

Lemma split_free (sep : ascii) (s : string) :
  has_char sep s = false -> split sep s = [s].
Proof.
  induction s as [| c s IH]; [reflexivity |]. cbn [has_char split].
  intros Hfree. apply orb_false_iff in Hfree as [-> Hfree].
  by rewrite IH.
Qed.

Lemma split_app_sep (sep : ascii) (a b : string) :
  has_char sep a = false ->
  split sep (a +:+ String sep b) = a :: split sep b.
Proof.
  induction a as [| c a IH]; intros Hfree.
  - cbv [String.append]. cbn [split]. by rewrite Ascii.eqb_refl.
  - cbn [has_char] in Hfree. apply orb_false_iff in Hfree as [Hc Hfree].
    change (String c a +:+ String sep b) with (String c (a +:+ String sep b)).
    cbn [split]. rewrite Hc. by rewrite IH.
Qed.

Lemma split_join (sep : ascii) (tokens : list string) :
  tokens <> [] ->
  Forall (fun token => has_char sep token = false) tokens ->
  split sep (join (String sep EmptyString) tokens) = tokens.
Proof.
  intros Hne Hfree. induction Hfree as [| token tokens Htoken Hfree IH]; [done |].
  unfold join in *. cbn [String.concat]. destruct tokens as [| token' tokens].
  - by apply split_free.
  - change (token ++ String sep EmptyString ++ String.concat (String sep EmptyString) (token' :: tokens))%string
      with (token +:+ String sep (String.concat (String sep EmptyString) (token' :: tokens))).
    rewrite split_app_sep by done. by rewrite IH.
Qed.

Lemma labels_loop_returns (todo : list string) :
  forall label_matches,
    (exists found, labels_loop todo label_matches = Ok found)
    <-> Forall (fun item => length (split ":" item) = 2%nat) todo.
Proof.
  induction todo as [| item rest IH]; intros label_matches.
  - split; [constructor | eauto].
  - cbn [labels_loop].
    destruct (split ":" item) as [| label [| val [| extra more]]] eqn:Hsplit.
    + split; [intros [? ?]; discriminate | intros Hall].
      inversion Hall as [| ? ? Hlen _]. by rewrite Hsplit in Hlen.
    + split; [intros [? ?]; discriminate | intros Hall].
      inversion Hall as [| ? ? Hlen _]. by rewrite Hsplit in Hlen.
    + rewrite IH. split.
      * intros Hrest. constructor; [by rewrite Hsplit | exact Hrest].
      * intros Hall. by inversion Hall.
    + split; [intros [? ?]; discriminate | intros Hall].
      inversion Hall as [| ? ? Hlen _]. by rewrite Hsplit in Hlen.
Qed.

Lemma split_label_item (p : string * string) :
  has_char ":" (fst p) = false -> has_char ":" (snd p) = false ->
  split ":" (label_item p) = [fst p; snd p].
Proof.
  intros Hkey Hval. unfold label_item.
  change (":" +:+ snd p) with (String ":" (snd p)).
  rewrite split_app_sep by exact Hkey. by rewrite split_free.
Qed.

Lemma labels_loop_items (pairs : list (string * string)) :
  Forall (fun p => has_char ":" (fst p) = false
                   /\ has_char ":" (snd p) = false) pairs ->
  forall label_matches,
    labels_loop (map label_item pairs) label_matches
    = Ok (fold_left (fun acc p => <[fst p := snd p]> acc) pairs label_matches).
Proof.
  induction 1 as [| p pairs [Hkey Hval] _ IH]; intros label_matches;
    [reflexivity |].
  cbn [map labels_loop fold_left]. rewrite split_label_item by assumption.
  apply IH.
Qed.

Lemma given_some (s : string) : s <> EmptyString -> given (Some s) = Some s.
Proof. by destruct s. Qed.

Lemma given_comma_list (option_value : option string) :
  comma_list option_value
    match given option_value with
    | Some s => split "," s
    | None => []
    end.
Proof.
  unfold comma_list. destruct (given option_value) as [s |]; [| reflexivity].
  split; [apply join_split |].
  split; [apply split_nonempty | apply split_tokens_free].
Qed.

Section CliProperties.
Context `{External}.

(** X15. [parse_args] ends in one of four ways. For [-h] or [--help]
    argparse writes the help text to standard output and [SystemExit(0)]
    is raised. When argparse rejects the command line, the usage and the
    message go to standard error and [SystemExit(2)] is raised. Otherwise
    nothing is written at all, and [parse_args] either returns or raises
    the [ValueError] of a malformed [--labels] item. Its own handler never
    runs: [parse_args] never writes the usage itself and never exits with
    status -1. *)
Theorem parse_args_outcomes :
  forall sys_args st,
    match arg_parser_parse_args sys_args, parse_args sys_args st with
    | inl (ArgparseHelp text), (outcome, st') =>
        outcome = Raise (PyExc (SystemExit 0) EmptyString)
        /\ st' = emit (EvWrite Stdout text) st
    | inl (ArgparseError message), (outcome, st') =>
        outcome = Raise (PyExc (SystemExit 2) message)
        /\ st' = emit (EvWrite Stderr (usage_text +:+ message)) st
    | inr args, (Ok _, st') => st' = st
    | inr args, (Raise e, st') =>
        st' = st /\ exc_cls e = ValueError
        /\ exists s, given (ns_labels args) = Some s
    end
    /\ (forall e st',
           parse_args sys_args st = (Raise e, st') ->
           exc_cls e <> SystemExit (-1)).
Proof.
  intros sys_args st. rewrite parse_args_handler_unreachable.
  unfold parse_args_try.
  destruct (arg_parser_parse_args sys_args) as [[text | message] | args].
  - split; [done |]. by intros e st' [= <- _].
  - split; [done |]. by intros e st' [= <- _].
  - destruct (given (ns_labels args)) as [s |]; [| done].
    destruct (labels_loop (split "," s) ∅) as [found | e] eqn:Hloop;
      cbn [bind]; [done |].
    apply labels_loop_raises in Hloop.
    split; [eauto |]. intros e' st' [= <- _]. by rewrite Hloop.
Qed.

(** X16. When argparse accepts the command line and [--labels] is given,
    [parse_args] returns exactly when every comma-separated item of the
    option consists of two parts around a single colon; an item without a
    colon, with two colons, or empty (as after a trailing comma) makes it
    raise. *)
Theorem parse_args_returns_iff_labels_well_formed (sys_args : list string)
    (st : state) (args : Namespace) (s : string) :
  arg_parser_parse_args sys_args = inr args ->
  given (ns_labels args) = Some s ->
  (exists q, parse_args sys_args st = (Ok q, st))
  <-> Forall (fun item => length (split ":" item) = 2%nat) (split "," s).
Proof.
  intros Hargs Hlabels. rewrite parse_args_handler_unreachable.
  unfold parse_args_try. rewrite Hargs, Hlabels.
  rewrite <- (labels_loop_returns (split "," s) ∅).
  destruct (labels_loop (split "," s) ∅) as [found | e]; cbn [bind].
  - split; eauto.
  - split; intros [? ?]; discriminate.
Qed.

(** X17. A [--labels] option written as [k1:v1,k2:v2,...], with keys and
    values free of commas and colons, is parsed into the dictionary that
    assigns the pairs in order: a later pair overrides an earlier one with
    the same key, and every other key keeps its value. *)
Theorem labels_option_round_trip (sys_args : list string) (st : state)
    (args : Namespace) (pairs : list (string * string)) :
  arg_parser_parse_args sys_args = inr args ->
  pairs <> [] ->
  Forall (fun p => plain_word (fst p) /\ plain_word (snd p)) pairs ->
  ns_labels args = Some (join "," (map label_item pairs)) ->
  (exists endpoints report_metrics display_labels,
      parse_args sys_args st
      = (Ok (endpoints, report_metrics, Some (dict_of pairs),
             ns_nonzero args, display_labels), st))
  /\ (forall k v other,
         dict_of (pairs ++ [(k, v)]) !! k = Some v
         /\ (other <> k ->
             dict_of (pairs ++ [(k, v)]) !! other = dict_of pairs !! other)).
Proof.
  intros Hargs Hne Hplain Hlabels. split.
  - rewrite parse_args_handler_unreachable. unfold parse_args_try.
    rewrite Hargs, Hlabels.
    assert (Hitems : split "," (join "," (map label_item pairs))
                     = map label_item pairs).
    { apply split_join; [by destruct pairs |].
      apply List.Forall_forall. intros item Hin.
      apply List.in_map_iff in Hin as (p & <- & Hp).
      rewrite List.Forall_forall in Hplain.
      destruct (Hplain p Hp) as [[Hk _] [Hv _]].
      unfold label_item. rewrite !has_char_app, Hk, Hv. reflexivity. }
    rewrite given_some.
    + rewrite Hitems. rewrite labels_loop_items.
      * cbn [bind]. unfold dict_of. eauto.
      * eapply List.Forall_impl; [| exact Hplain].
        intros p [[_ Hk] [_ Hv]]. by split.
    + intros Hempty. apply (f_equal (split ",")) in Hempty.
      rewrite Hitems in Hempty. destruct pairs as [| p pairs]; [done |].
      cbn [map split] in Hempty. injection Hempty as Hitem _.
      unfold label_item in Hitem.
      apply (f_equal (has_char ":")) in Hitem.
      rewrite has_char_app in Hitem. cbn in Hitem.
      by rewrite orb_true_r in Hitem.
  - intros k v other. unfold dict_of. rewrite fold_left_app. cbn [fold_left fst snd].
    split; [apply lookup_insert_eq | intros Hother; by apply lookup_insert_ne].
Qed.

(** X18. The lists [parse_args] returns are the comma-separated options
    of the command line: an absent or empty option gives the empty list
    (for [--display-labels]: no list), and a given one gives a non-empty
    list whose items hold no comma and whose comma join is the option. The
    flag is returned as argparse stored it. *)
Theorem comma_lists_round_trip (sys_args : list string) (st st' : state)
    (args : Namespace) (endpoints report_metrics : list string)
    (label_matches : option (gmap string string)) (nonzero_only : bool)
    (display_labels : option (list string)) :
  arg_parser_parse_args sys_args = inr args ->
  parse_args sys_args st
  = (Ok (endpoints, report_metrics, label_matches, nonzero_only,
         display_labels), st') ->
  nonzero_only = ns_nonzero args
  /\ comma_list (ns_endpoints args) endpoints
  /\ comma_list (ns_metrics args) report_metrics
  /\ match display_labels with
     | None => given (ns_display_labels args) = None
     | Some keys =>
         keys <> [] /\ comma_list (ns_display_labels args) keys
     end
  /\ (label_matches = None <-> given (ns_labels args) = None).
Proof.
  intros Hargs. rewrite parse_args_handler_unreachable.
  unfold parse_args_try. rewrite Hargs.
  pose proof (given_comma_list (ns_endpoints args)) as Hendpoints.
  pose proof (given_comma_list (ns_metrics args)) as Hmetrics.
  pose proof (given_comma_list (ns_display_labels args)) as Hdisplay.
  assert (Hshown :
            match match given (ns_display_labels args) with
                  | Some s => Some (split "," s)
                  | None => None
                  end with
            | None => given (ns_display_labels args) = None
            | Some keys => keys <> [] /\ comma_list (ns_display_labels args) keys
            end).
  { destruct (given (ns_display_labels args)) as [s |] eqn:Hgiven; [| done].
    split; [apply split_nonempty | exact Hdisplay]. }
  destruct (given (ns_labels args)) as [s |].
  - destruct (labels_loop (split "," s) ∅) as [found | e]; cbn [bind];
      intros [= <- <- <- <- <- <-].
    repeat split; try done.
  - intros [= <- <- <- <- <- <-]. repeat split; done.
Qed.

(** X19. A failure of [parse_args] ends [main] before the pipeline
    starts: the exception is the outcome of [main], no network call is
    made, and nothing is requested, parsed or reported; the only thing that
    can have been written is argparse's own text, the help on standard
    output or the usage and message on standard error. *)
Theorem argument_error_runs_no_pipeline (sys_args : list string)
    (st st1 : state) (e : py_exc) :
  parse_args sys_args st = (Raise e, st1) ->
  main sys_args st = (Raise e, st1)
  /\ calls st1 = calls st
  /\ (trace st1 = trace st
      \/ (exists message,
            arg_parser_parse_args sys_args = inl (ArgparseError message)
            /\ trace st1
               = trace st ++ [EvWrite Stderr (usage_text +:+ message)])
      \/ (exists text,
            arg_parser_parse_args sys_args = inl (ArgparseHelp text)
            /\ trace st1 = trace st ++ [EvWrite Stdout text])).
Proof.
  intros Hparse. split; [unfold main; by rewrite Hparse |].
  rewrite parse_args_handler_unreachable in Hparse.
  unfold parse_args_try in Hparse.
  destruct (arg_parser_parse_args sys_args) as [[text | message] | args].
  - injection Hparse as _ <-. split; [reflexivity |]. right. right. by eexists.
  - injection Hparse as _ <-. split; [reflexivity |]. right. left. by eexists.
  - destruct (given (ns_labels args)) as [s |]; [| discriminate].
    injection Hparse as _ <-. by split; [| left].
Qed.

End CliProperties.

(** * The further properties on concrete inputs *)

Lemma decode_value_learned_macs_injective_witness :
  0xB827EB608918 = 0xB827EB608918
  /\ String.length "b8:27:eb:60:89:18" = 17%nat.
Proof.
  apply (decode_value_learned_macs_injective float_mac float_mac_and_half
           0xB827EB608918 0xB827EB608918 "b8:27:eb:60:89:18");
    vm_compute; reflexivity.
Defined.

Lemma filter_twice_is_filter_once_witness :
  _get_samples_from_metrics [mkMetric "retained" [dp_status_sample]] None None
    true
  = Ok [dp_status_sample].
Proof.
  apply (filter_twice_is_filter_once mixed_family (Some "dp_status") None true
           [dp_status_sample] "retained").
  vm_compute. reflexivity.
Defined.

Lemma uncaught_exception_leaves_scrape_witness :
  @scrape_prometheus env_timeout ([] ++ faucet_endpoint :: [gauge_endpoint]) 3
     Stderr initial_state
  = (Raise read_timeout, mkState 1 [EvGet faucet_endpoint]).
Proof.
  apply (@uncaught_exception_leaves_scrape env_timeout 3 Stderr []
           faucet_endpoint [gauge_endpoint] initial_state initial_state []
           read_timeout).
  - lia.
  - reflexivity.
  - reflexivity.
  - reflexivity.
Defined.

Lemma parse_error_aborts_scrape_witness :
  @scrape_prometheus env_garbage ([] ++ faucet_endpoint :: [gauge_endpoint]) 3
     Stderr initial_state
  = (Ok None,
     mkState 1 [EvGet faucet_endpoint; EvParse (Some "garbage");
                EvWrite Stderr "Invalid line: garbage"]).
Proof.
  apply (@parse_error_aborts_scrape env_garbage 3 Stderr [] faucet_endpoint
           "garbage" [gauge_endpoint] initial_state initial_state []
           (PyExc ValueError "Invalid line: garbage")).
  - lia.
  - reflexivity.
  - reflexivity.
  - reflexivity.
Defined.

Lemma scrape_collects_in_endpoint_order_witness :
  @scrape_prometheus env_ok [faucet_endpoint; gauge_endpoint] 3 Stderr
     initial_state
  = (Ok (Some [dp_status_family; dp_status_family]),
     mkState 2 [EvGet faucet_endpoint; EvParse (Some dp_status_text);
                EvGet gauge_endpoint; EvParse (Some dp_status_text)]).
Proof.
  apply (@scrape_collects_in_endpoint_order env_ok (fun _ => dp_status_text)
           (fun _ => [dp_status_family]) 3 Stderr
           [faucet_endpoint; gauge_endpoint]).
  - lia.
  - intros k endpoint Hk. destruct k as [| [| k]]; [| | discriminate];
      injection Hk as <-; split; reflexivity.
Defined.

Lemma non_ok_replies_before_ok_are_harmless_witness :
  @endpoints_loop env_unavailable_once 3 Stderr [faucet_endpoint] []
     initial_state
  = (Ok (Some [dp_status_family]),
     mkState 2 [EvGet faucet_endpoint; EvGet faucet_endpoint;
                EvParse (Some dp_status_text)]).
Proof.
  apply (@non_ok_replies_before_ok_are_harmless env_unavailable_once 3 Stderr
           faucet_endpoint dp_status_text [] [] initial_state 1).
  - reflexivity.
  - vm_compute. lia.
  - intros k Hk. cbn in Hk. destruct k as [| k]; [| lia].
    exists 503, []. split; [reflexivity | discriminate].
  - reflexivity.
Defined.

Lemma single_metric_report_lines_witness :
  @report_label_match_metrics env_ok (Some ["learned_macs"]) mac_family None
     false tab None
  = Ok (RStr ("learned_macs" +:+ tab +:+ "[('dp_id', '1')]" +:+ tab
              +:+ "b8:27:eb:60:89:18"))
  /\ length ["learned_macs" +:+ tab +:+ "[('dp_id', '1')]" +:+ tab
              +:+ "b8:27:eb:60:89:18"]
     = length [mac_sample].
Proof.
  apply (@single_metric_report_lines env_ok "learned_macs" mac_family None
           false tab None [mac_sample] [VStr "b8:27:eb:60:89:18"]).
  - vm_compute. reflexivity.
  - constructor; [vm_compute; reflexivity | constructor].
Defined.

Lemma undecodable_value_fails_report_witness :
  exists e,
    @report_label_match_metrics env_ok (Some ["learned_macs"; "dp_status"])
       nan_mac_family None false tab None
    = Raise e.
Proof.
  apply (@undecodable_value_fails_report env_ok "learned_macs" ["dp_status"]
           nan_mac_family None false tab None
           [mkSample "learned_macs" ∅ S754_nan None]
           (mkSample "learned_macs" ∅ S754_nan None)
           (PyExc ValueError "cannot convert float NaN to integer")).
  - vm_compute. reflexivity.
  - by left.
  - reflexivity.
Defined.

Lemma parse_args_returns_iff_labels_well_formed_witness :
  (exists q, @parse_args env_ok args_bad_label initial_state
             = (Ok q, initial_state))
  <-> Forall (fun item => length (split ":" item) = 2%nat) (split "," "dp_id").
Proof.
  apply (@parse_args_returns_iff_labels_well_formed env_ok args_bad_label
           initial_state
           (mkNamespace false (Some faucet_endpoint) None (Some "dp_id") None)
           "dp_id");
    reflexivity.
Defined.

Lemma labels_option_round_trip_witness :
  (exists endpoints report_metrics display_labels,
      @parse_args env_labels args_two_labels initial_state
      = (Ok (endpoints, report_metrics,
             Some (dict_of [("dp_id", "1"); ("port", "3")]), false,
             display_labels), initial_state))
  /\ (forall k v other,
         dict_of ([("dp_id", "1"); ("port", "3")] ++ [(k, v)]) !! k = Some v
         /\ (other <> k ->
             dict_of ([("dp_id", "1"); ("port", "3")] ++ [(k, v)]) !! other
             = dict_of [("dp_id", "1"); ("port", "3")] !! other)).
Proof.
  apply (@labels_option_round_trip env_labels args_two_labels initial_state
           (mkNamespace false
              (Some "http://172.17.0.1:9302,http://172.17.0.1:9303") None
              (Some "dp_id:1,port:3") None)
           [("dp_id", "1"); ("port", "3")]).
  - reflexivity.
  - discriminate.
  - repeat constructor.
  - reflexivity.
Defined.

Lemma comma_lists_round_trip_witness :
  false = false
  /\ comma_list (Some "http://172.17.0.1:9302,http://172.17.0.1:9303")
       [faucet_endpoint; gauge_endpoint]
  /\ comma_list None []
  /\ given None = None
  /\ (Some (dict_of [("dp_id", "1"); ("port", "3")]) = None
      <-> given (Some "dp_id:1,port:3") = None).
Proof.
  apply (@comma_lists_round_trip env_labels args_two_labels initial_state
           initial_state
           (mkNamespace false
              (Some "http://172.17.0.1:9302,http://172.17.0.1:9303") None
              (Some "dp_id:1,port:3") None)
           [faucet_endpoint; gauge_endpoint] []
           (Some (dict_of [("dp_id", "1"); ("port", "3")])) false None).
  - reflexivity.
  - vm_compute. reflexivity.
Defined.

Lemma argument_error_runs_no_pipeline_witness :
  @main env_help args_help initial_state
  = (Raise (PyExc (SystemExit 0) EmptyString),
     mkState 0 [EvWrite Stdout help_text])
  /\ calls (mkState 0 [EvWrite Stdout help_text]) = calls initial_state
  /\ (trace (mkState 0 [EvWrite Stdout help_text]) = trace initial_state
      \/ (exists message,
            @arg_parser_parse_args env_help args_help
            = inl (ArgparseError message)
            /\ trace (mkState 0 [EvWrite Stdout help_text])
               = trace initial_state
                 ++ [EvWrite Stderr (@usage_text env_help +:+ message)])
      \/ (exists text,
            @arg_parser_parse_args env_help args_help = inl (ArgparseHelp text)
            /\ trace (mkState 0 [EvWrite Stdout help_text])
               = trace initial_state ++ [EvWrite Stdout text])).
Proof.
  apply (@argument_error_runs_no_pipeline env_help args_help initial_state
           (mkState 0 [EvWrite Stdout help_text])
           (PyExc (SystemExit 0) EmptyString)).
  vm_compute. reflexivity.
Defined.

(** Only the displayed keys reach the label list of a line, and an option
    given as the empty string counts as absent. *)
Lemma display_labels_and_empty_options :
  sorted_labels_of (Some ["dp_id"]) {[ "dp_id" := "1"; "port" := "3" ]}
  = [("dp_id", "1")]
  /\ sorted_labels_of None {[ "port" := "3"; "dp_id" := "1" ]}
     = [("dp_id", "1"); ("port", "3")]
  /\ given (Some EmptyString) = None
  /\ given (Some "dp_status") = Some "dp_status".
Proof. repeat split; vm_compute; reflexivity. Qed.

(** The characters of a text are its letters, and a two-byte character
    stays whole. *)
Lemma characters_of_text :
  characters "dp_id" = ["d"; "p"; "_"; "i"; "d"]
  /\ characters (String (ascii_of_nat 195) (String (ascii_of_nat 169) "s"))
     = [String (ascii_of_nat 195) (String (ascii_of_nat 169) EmptyString); "s"].
Proof. split; vm_compute; reflexivity. Qed.
